(** * Descriptor-set cache and cache keys of the Vulkan backend

    A shallow embedding of [VuklanDescriptorSetCache::createDescriptorSets],
    [VuklanDescriptorSetCache::bindDescriptors] and of the cache keys declared in
    [VulkanPipelineCache.h].  Handles ([VkBuffer], [VkDescriptorSet], ...) are
    64-bit integers where [0] is [VK_NULL_HANDLE]; 32-bit counters carry their
    wrap-around explicitly. *)

From Stdlib Require Import ZArith List Bool Lia Permutation.
Import ListNotations.
Open Scope Z_scope.

(** ** Constants (VulkanPipelineCache.h) *)

Definition UBUFFER_BINDING_COUNT : nat := 10.     (* Program::UNIFORM_BINDING_COUNT *)
Definition SAMPLER_BINDING_COUNT : nat := 62.     (* MAX_SAMPLER_COUNT *)
Definition INPUT_ATTACHMENT_COUNT : nat := 1.
Definition SHADER_MODULE_COUNT : nat := 2.
Definition VERTEX_ATTRIBUTE_COUNT : nat := 16.    (* MAX_VERTEX_ATTRIBUTE_COUNT *)
Definition DESCRIPTOR_TYPE_COUNT : nat := 3.
Definition INITIAL_DESCRIPTOR_SET_POOL_SIZE : Z := 512.

Definition VK_NULL_HANDLE : Z := 0.
(** [VK_WHOLE_SIZE] is [~0ULL]. *)
Definition VK_WHOLE_SIZE : Z := 2 ^ 64 - 1.
(** The cache stores sizes in 32 bits, so its own "whole" sentinel is the
    32-bit all-ones value. *)
Definition WHOLE_SIZE : Z := 2 ^ 32 - 1.

(** uint32_t arithmetic. *)
Definition wrap32 (z : Z) : Z := z mod 2 ^ 32.

(** ** Byte images of plain-old-data fields *)

(** The [n] little-endian bytes of a field of [n] bytes. *)
Fixpoint le_bytes (n : nat) (z : Z) : list Z :=
  match n with
  | O => []
  | S n' => Z.land z 255 :: le_bytes n' (Z.shiftr z 8)
  end.

(** The [sizeof] bytes of an object in memory: byte [i] of its image. *)
Definition memoryImage (sizeof : nat) (bytes : list Z) : list Z :=
  map (fun i => nth i bytes 0) (seq 0 sizeof).

(** [memcmp(a, b, n)]: the difference of the first differing bytes, or 0. *)
Fixpoint memcmp (a b : list Z) : Z :=
  match a, b with
  | x :: a', y :: b' => if x =? y then memcmp a' b' else x - y
  | _, _ => 0
  end.

(** The [i]-th 32-bit little-endian word of a byte image. *)
Definition word_at (img : list Z) (i : nat) : Z :=
  Z.lor (nth (4 * i) img 0)
    (Z.lor (Z.shiftl (nth (4 * i + 1) img 0) 8)
       (Z.lor (Z.shiftl (nth (4 * i + 2) img 0) 16)
          (Z.shiftl (nth (4 * i + 3) img 0) 24))).

Definition rotl32 (x r : Z) : Z :=
  wrap32 (Z.lor (Z.shiftl x r) (Z.shiftr x (32 - r))).

(** Modelled from the spec: [utils::hash::murmur3] (utils/Hash.h) is not part of
    the sources; the spec asks for a hash derived from the full byte image of
    the key.  It is modelled as MurmurHash3 over the 32-bit words of the
    image, the shape [MurmurHashFn] names. *)
Definition murmur_round (h k : Z) : Z :=
  let k := wrap32 (k * 0xcc9e2d51) in
  let k := rotl32 k 15 in
  let k := wrap32 (k * 0x1b873593) in
  let h := Z.lxor h k in
  let h := rotl32 h 13 in
  wrap32 (h * 5 + 0xe6546b64).

Definition murmur3 (key : list Z) (seed : Z) : Z :=
  let h := fold_left murmur_round key seed in
  let h := Z.lxor h (Z.of_nat (length key)) in
  let h := Z.lxor h (Z.shiftr h 16) in
  let h := wrap32 (h * 0x85ebca6b) in
  let h := Z.lxor h (Z.shiftr h 13) in
  let h := wrap32 (h * 0xc2b2ae35) in
  Z.lxor h (Z.shiftr h 16).

(** [MurmurHashFn<T>]: murmur3 over the [sizeof(T) / 4] words of the key. *)
Definition MurmurHashFn (sizeof : nat) (bytes : list Z) : Z :=
  let img := memoryImage sizeof bytes in
  murmur3 (map (word_at img) (seq 0 (Nat.div sizeof 4))) 0.

(** Modelled from the spec: the bodies of [DescEqual] and [PipelineEqual] are
    not part of the sources; the spec has keys compared as raw bytes, that is
    [memcmp] over [sizeof] bytes. *)
Definition memcmpEqual (sizeof : nat) (b1 b2 : list Z) : bool :=
  memcmp (memoryImage sizeof b1) (memoryImage sizeof b2) =? 0.

(** ** Descriptor key *)

Record VkDescriptorImageInfo := {
  vkSampler : Z;
  vkImageView : Z;
  vkImageLayout : Z;
}.

(** [DescriptorImageInfo]: [VkDescriptorImageInfo] with explicit padding. *)
Record DescriptorImageInfo := {
  sampler : Z;
  imageView : Z;
  imageLayout : Z;
  padding : Z;
}.

(** [DescriptorImageInfo::operator=(const VkDescriptorImageInfo&)]. *)
Definition assignImageInfo (that : VkDescriptorImageInfo) : DescriptorImageInfo :=
  {| sampler := vkSampler that; imageView := vkImageView that;
     imageLayout := vkImageLayout that; padding := 0 |}.

(** [operator VkDescriptorImageInfo() const]. *)
Definition toVkImageInfo (d : DescriptorImageInfo) : VkDescriptorImageInfo :=
  {| vkSampler := sampler d; vkImageView := imageView d;
     vkImageLayout := imageLayout d |}.

Definition zeroImageInfo : DescriptorImageInfo :=
  {| sampler := 0; imageView := 0; imageLayout := 0; padding := 0 |}.

Record DescriptorKey := {
  uniformBuffers : list Z;                       (* VkBuffer[UBUFFER_BINDING_COUNT] *)
  samplers : list DescriptorImageInfo;           (* [SAMPLER_BINDING_COUNT] *)
  inputAttachments : list DescriptorImageInfo;   (* [INPUT_ATTACHMENT_COUNT] *)
  uniformBufferOffsets : list Z;                 (* uint32_t[UBUFFER_BINDING_COUNT] *)
  uniformBufferSizes : list Z;                   (* uint32_t[UBUFFER_BINDING_COUNT] *)
}.

(** [DescriptorKey k = {}]. *)
Definition zeroDescriptorKey : DescriptorKey :=
  {| uniformBuffers := repeat 0 UBUFFER_BINDING_COUNT;
     samplers := repeat zeroImageInfo SAMPLER_BINDING_COUNT;
     inputAttachments := repeat zeroImageInfo INPUT_ATTACHMENT_COUNT;
     uniformBufferOffsets := repeat 0 UBUFFER_BINDING_COUNT;
     uniformBufferSizes := repeat 0 UBUFFER_BINDING_COUNT |}.

Definition imageInfoBytes (d : DescriptorImageInfo) : list Z :=
  le_bytes 8 (sampler d) ++ le_bytes 8 (imageView d) ++
  le_bytes 4 (imageLayout d) ++ le_bytes 4 (padding d).

(** The byte image of a [DescriptorKey], field by field in declaration order. *)
Definition descriptorKeyBytes (k : DescriptorKey) : list Z :=
  concat (map (le_bytes 8) (uniformBuffers k)) ++
  concat (map imageInfoBytes (samplers k)) ++
  concat (map imageInfoBytes (inputAttachments k)) ++
  concat (map (le_bytes 4) (uniformBufferOffsets k)) ++
  concat (map (le_bytes 4) (uniformBufferSizes k)).

(** [sizeof(DescriptorKey) == 1672]. *)
Definition sizeofDescriptorKey : nat := 1672.

Definition DescHashFn (k : DescriptorKey) : Z :=
  MurmurHashFn sizeofDescriptorKey (descriptorKeyBytes k).

Definition DescEqual (k1 k2 : DescriptorKey) : bool :=
  memcmpEqual sizeofDescriptorKey (descriptorKeyBytes k1) (descriptorKeyBytes k2).

(** A value of a [bits]-wide unsigned C++ type. *)
Definition inRange (bits : Z) (x : Z) : bool := (0 <=? x) && (x <? 2 ^ bits).

(** The fields of a [DescriptorImageInfo] fit their C++ types: two 64-bit
    handles, a 32-bit enum and a [uint32_t]. *)
Definition imageInfoInRange (d : DescriptorImageInfo) : bool :=
  inRange 64 (sampler d) && inRange 64 (imageView d) &&
  inRange 32 (imageLayout d) && inRange 32 (padding d).

(** The arrays of a [DescriptorKey] have their declared lengths. *)
Definition descriptorKeyShaped (k : DescriptorKey) : bool :=
  (length (uniformBuffers k) =? UBUFFER_BINDING_COUNT)%nat &&
  (length (samplers k) =? SAMPLER_BINDING_COUNT)%nat &&
  (length (inputAttachments k) =? INPUT_ATTACHMENT_COUNT)%nat &&
  (length (uniformBufferOffsets k) =? UBUFFER_BINDING_COUNT)%nat &&
  (length (uniformBufferSizes k) =? UBUFFER_BINDING_COUNT)%nat.

(** A [DescriptorKey] that can exist in memory: declared array lengths and
    every field within its C++ type. *)
Definition descriptorKeyWellFormed (k : DescriptorKey) : bool :=
  descriptorKeyShaped k &&
  forallb (inRange 64) (uniformBuffers k) &&
  forallb imageInfoInRange (samplers k) &&
  forallb imageInfoInRange (inputAttachments k) &&
  forallb (inRange 32) (uniformBufferOffsets k) &&
  forallb (inRange 32) (uniformBufferSizes k).

(** ** Pipeline key *)

Module Pipeline.

(** [RasterState]: bit-fields packed into the first word, floats carried as
    their IEEE-754 bit patterns. *)
Record RasterState := {
  cullMode : Z; frontFace : Z; depthBiasEnable : Z; blendEnable : Z;
  depthWriteEnable : Z; alphaToCoverageEnable : Z;
  srcColorBlendFactor : Z; dstColorBlendFactor : Z;
  srcAlphaBlendFactor : Z; dstAlphaBlendFactor : Z; colorWriteMask : Z;
  rasterizationSamples : Z; colorTargetCount : Z;
  colorBlendOp : Z; alphaBlendOp : Z; depthCompareOp : Z;
  depthBiasConstantFactor : Z; depthBiasSlopeFactor : Z;
}.

Definition field (width pos x : Z) : Z := Z.shiftl (Z.land x (Z.ones width)) pos.

Definition rasterStateBytes (r : RasterState) : list Z :=
  le_bytes 4 (Z.lor (field 2 0 (cullMode r))
             (Z.lor (field 2 2 (frontFace r))
             (Z.lor (field 1 4 (depthBiasEnable r))
             (Z.lor (field 1 5 (blendEnable r))
             (Z.lor (field 1 6 (depthWriteEnable r))
             (Z.lor (field 1 7 (alphaToCoverageEnable r))
             (Z.lor (field 5 8 (srcColorBlendFactor r))
             (Z.lor (field 5 13 (dstColorBlendFactor r))
             (Z.lor (field 5 18 (srcAlphaBlendFactor r))
             (Z.lor (field 5 23 (dstAlphaBlendFactor r))
                    (field 4 28 (colorWriteMask r)))))))))))) ++
  le_bytes 1 (rasterizationSamples r) ++
  le_bytes 1 (colorTargetCount r) ++
  le_bytes 1 (Z.lor (field 4 0 (colorBlendOp r)) (field 4 4 (alphaBlendOp r))) ++
  le_bytes 1 (depthCompareOp r) ++
  le_bytes 4 (depthBiasConstantFactor r) ++
  le_bytes 4 (depthBiasSlopeFactor r).

Record VertexInputAttributeDescription := {
  location : Z; attrBinding : Z; format : Z; attrOffset : Z;
}.

Record VertexInputBindingDescription := {
  binding : Z; inputRate : Z; stride : Z;
}.

Record PipelineKey := {
  shaders : list Z;                                          (* [SHADER_MODULE_COUNT] *)
  renderPass : Z;
  topology : Z;
  subpassIndex : Z;
  vertexAttributes : list VertexInputAttributeDescription;   (* [VERTEX_ATTRIBUTE_COUNT] *)
  vertexBuffers : list VertexInputBindingDescription;        (* [VERTEX_ATTRIBUTE_COUNT] *)
  rasterState : RasterState;
  padding : Z;
  layout : Z;                                                (* utils::bitset128 *)
}.

Definition attributeBytes (a : VertexInputAttributeDescription) : list Z :=
  le_bytes 1 (location a) ++ le_bytes 1 (attrBinding a) ++
  le_bytes 2 (format a) ++ le_bytes 4 (attrOffset a).

Definition bindingBytes (b : VertexInputBindingDescription) : list Z :=
  le_bytes 2 (binding b) ++ le_bytes 2 (inputRate b) ++ le_bytes 4 (stride b).

Record VkVertexInputAttributeDescription := {
  vkLocation : Z;      (* uint32_t *)
  vkAttrBinding : Z;   (* uint32_t *)
  vkFormat : Z;        (* VkFormat *)
  vkAttrOffset : Z;    (* uint32_t *)
}.

(** [VertexInputAttributeDescription::operator=(const VkVertexInputAttributeDescription&)]:
    the [assert_invariant]s on the ranges are compiled out in release builds;
    the stores into [uint8_t] and [uint16_t] fields truncate. *)
Definition assignAttribute (that : VkVertexInputAttributeDescription)
  : VertexInputAttributeDescription :=
  {| location := vkLocation that mod 2 ^ 8;
     attrBinding := vkAttrBinding that mod 2 ^ 8;
     format := vkFormat that mod 2 ^ 16;
     attrOffset := vkAttrOffset that |}.

(** [operator VkVertexInputAttributeDescription() const]. *)
Definition toVkAttribute (a : VertexInputAttributeDescription)
  : VkVertexInputAttributeDescription :=
  {| vkLocation := location a; vkAttrBinding := attrBinding a;
     vkFormat := format a; vkAttrOffset := attrOffset a |}.

Record VkVertexInputBindingDescription := {
  vkBinding : Z;     (* uint32_t *)
  vkStride : Z;      (* uint32_t *)
  vkInputRate : Z;   (* VkVertexInputRate *)
}.

(** [VertexInputBindingDescription::operator=(const VkVertexInputBindingDescription&)]:
    [binding] and [inputRate] are stored into [uint16_t] fields. *)
Definition assignBinding (that : VkVertexInputBindingDescription)
  : VertexInputBindingDescription :=
  {| binding := vkBinding that mod 2 ^ 16;
     stride := vkStride that;
     inputRate := vkInputRate that mod 2 ^ 16 |}.

(** [operator VkVertexInputBindingDescription() const]. *)
Definition toVkBinding (b : VertexInputBindingDescription) : VkVertexInputBindingDescription :=
  {| vkBinding := binding b; vkStride := stride b; vkInputRate := inputRate b |}.

Definition pipelineKeyBytes (k : PipelineKey) : list Z :=
  concat (map (le_bytes 8) (shaders k)) ++
  le_bytes 8 (renderPass k) ++
  le_bytes 2 (topology k) ++
  le_bytes 2 (subpassIndex k) ++
  concat (map attributeBytes (vertexAttributes k)) ++
  concat (map bindingBytes (vertexBuffers k)) ++
  rasterStateBytes (rasterState k) ++
  le_bytes 4 (padding k) ++
  le_bytes 16 (layout k).

(** [sizeof(PipelineKey) == 320]. *)
Definition sizeofPipelineKey : nat := 320.

Definition PipelineHashFn (k : PipelineKey) : Z :=
  MurmurHashFn sizeofPipelineKey (pipelineKeyBytes k).

Definition PipelineEqual (k1 k2 : PipelineKey) : bool :=
  memcmpEqual sizeofPipelineKey (pipelineKeyBytes k1) (pipelineKeyBytes k2).

(** The arrays of a [PipelineKey] have their declared lengths. *)
Definition pipelineKeyShaped (k : PipelineKey) : bool :=
  (length (shaders k) =? SHADER_MODULE_COUNT)%nat &&
  (length (vertexAttributes k) =? VERTEX_ATTRIBUTE_COUNT)%nat &&
  (length (vertexBuffers k) =? VERTEX_ATTRIBUTE_COUNT)%nat.

End Pipeline.

(** ** Descriptor writes *)

Record VkDescriptorBufferInfo := {
  buffer : Z;
  offset : Z;
  range : Z;
}.

Inductive VkDescriptorType :=
| VK_DESCRIPTOR_TYPE_UNIFORM_BUFFER
| VK_DESCRIPTOR_TYPE_COMBINED_IMAGE_SAMPLER
| VK_DESCRIPTOR_TYPE_INPUT_ATTACHMENT.

(** [VkWriteDescriptorSet]; [pImageInfo] and [pBufferInfo] carry the pointee
    ([None] for [nullptr]). *)
Record VkWriteDescriptorSet := {
  dstSet : Z;
  dstBinding : Z;
  dstArrayElement : Z;
  descriptorCount : Z;
  descriptorType : VkDescriptorType;
  pImageInfo : option VkDescriptorImageInfo;
  pBufferInfo : option VkDescriptorBufferInfo;
}.

(** [writeInfo.dstSet = ...; writeInfo.dstBinding = binding;] *)
Definition setDst (w : VkWriteDescriptorSet) (set binding : Z) : VkWriteDescriptorSet :=
  {| dstSet := set; dstBinding := binding; dstArrayElement := dstArrayElement w;
     descriptorCount := descriptorCount w; descriptorType := descriptorType w;
     pImageInfo := pImageInfo w; pBufferInfo := pBufferInfo w |}.

(** ** Cache entries and cache state *)

Record DescriptorCacheEntry := {
  handles : list Z;          (* std::array<VkDescriptorSet, DESCRIPTOR_TYPE_COUNT> *)
  lastUsed : Z;
  pipelineLayout : Z;
  id : Z;
}.

Record PipelineLayoutCacheEntry := {
  layoutHandle : Z;
  layoutLastUsed : Z;
  descriptorSetLayouts : list Z;
  descriptorSetArenas : list (list Z);
}.

(** Calls made on the Vulkan device, in the order they are made. *)
Inductive VkCall :=
| vkCreatePipelineLayout (key : Z)
| vkCreateDescriptorPool (size : Z)
| vkAllocateDescriptorSets (pool : Z) (layouts : list Z)
| vkUpdateDescriptorSets (writes : list VkWriteDescriptorSet)
| vkCmdBindDescriptorSets (layout : Z) (sets : list Z).

(** What the device answers to the calls that create objects. *)
Record VkReplies := {
  replyAllocate : option (list Z);   (* vkAllocateDescriptorSets: VK_SUCCESS and the sets, or an error *)
  replyPool : Z;                     (* createDescriptorPool *)
  replyLayout : Z * list Z;          (* pipeline layout and its descriptor-set layouts *)
}.

Record Cache := {
  mCurrentTime : Z;
  mPipelineLayouts : list (Z * PipelineLayoutCacheEntry);
  mPipelineRequirementsLayout : Z;             (* mPipelineRequirements.layout *)
  mDescriptorSets : list (DescriptorKey * DescriptorCacheEntry);
  mDescriptorResources : list (Z * list Z);    (* id -> acquired resources *)
  mDescriptorCacheEntryCount : Z;
  mDescriptorPoolSize : Z;
  mDescriptorArenasCount : Z;
  mDescriptorPool : Z;
  mExtinctDescriptorPools : list Z;
  mExtinctDescriptorBundles : list DescriptorCacheEntry;
  mDummyBufferWriteInfo : VkWriteDescriptorSet;
  mDescriptorRequirements : DescriptorKey;
  mBoundDescriptor : DescriptorKey;
  mPipelineBoundResources : list Z;
  (* device side: the contents of each (descriptor set, binding), and the call log *)
  deviceDescriptors : list ((Z * Z) * VkWriteDescriptorSet);
  deviceCalls : list VkCall;
}.

Definition mkCache t pl prl ds dr cnt ps ac p ep eb dw req bd pbr dd dc : Cache :=
  {| mCurrentTime := t; mPipelineLayouts := pl; mPipelineRequirementsLayout := prl;
     mDescriptorSets := ds; mDescriptorResources := dr; mDescriptorCacheEntryCount := cnt;
     mDescriptorPoolSize := ps; mDescriptorArenasCount := ac; mDescriptorPool := p;
     mExtinctDescriptorPools := ep; mExtinctDescriptorBundles := eb;
     mDummyBufferWriteInfo := dw; mDescriptorRequirements := req; mBoundDescriptor := bd;
     mPipelineBoundResources := pbr; deviceDescriptors := dd; deviceCalls := dc |}.

(** Field updates. *)
Definition setPipelineLayouts v s :=
  mkCache (mCurrentTime s) v (mPipelineRequirementsLayout s) (mDescriptorSets s)
    (mDescriptorResources s) (mDescriptorCacheEntryCount s) (mDescriptorPoolSize s)
    (mDescriptorArenasCount s) (mDescriptorPool s) (mExtinctDescriptorPools s)
    (mExtinctDescriptorBundles s) (mDummyBufferWriteInfo s) (mDescriptorRequirements s)
    (mBoundDescriptor s) (mPipelineBoundResources s) (deviceDescriptors s)
    (deviceCalls s).
Definition setDescriptorSets v s :=
  mkCache (mCurrentTime s) (mPipelineLayouts s) (mPipelineRequirementsLayout s) v
    (mDescriptorResources s) (mDescriptorCacheEntryCount s) (mDescriptorPoolSize s)
    (mDescriptorArenasCount s) (mDescriptorPool s) (mExtinctDescriptorPools s)
    (mExtinctDescriptorBundles s) (mDummyBufferWriteInfo s) (mDescriptorRequirements s)
    (mBoundDescriptor s) (mPipelineBoundResources s) (deviceDescriptors s)
    (deviceCalls s).
Definition setDescriptorResources v s :=
  mkCache (mCurrentTime s) (mPipelineLayouts s) (mPipelineRequirementsLayout s)
    (mDescriptorSets s) v (mDescriptorCacheEntryCount s) (mDescriptorPoolSize s)
    (mDescriptorArenasCount s) (mDescriptorPool s) (mExtinctDescriptorPools s)
    (mExtinctDescriptorBundles s) (mDummyBufferWriteInfo s) (mDescriptorRequirements s)
    (mBoundDescriptor s) (mPipelineBoundResources s) (deviceDescriptors s)
    (deviceCalls s).
Definition setEntryCount v s :=
  mkCache (mCurrentTime s) (mPipelineLayouts s) (mPipelineRequirementsLayout s)
    (mDescriptorSets s) (mDescriptorResources s) v (mDescriptorPoolSize s)
    (mDescriptorArenasCount s) (mDescriptorPool s) (mExtinctDescriptorPools s)
    (mExtinctDescriptorBundles s) (mDummyBufferWriteInfo s) (mDescriptorRequirements s)
    (mBoundDescriptor s) (mPipelineBoundResources s) (deviceDescriptors s)
    (deviceCalls s).
Definition setPoolSize v s :=
  mkCache (mCurrentTime s) (mPipelineLayouts s) (mPipelineRequirementsLayout s)
    (mDescriptorSets s) (mDescriptorResources s) (mDescriptorCacheEntryCount s) v
    (mDescriptorArenasCount s) (mDescriptorPool s) (mExtinctDescriptorPools s)
    (mExtinctDescriptorBundles s) (mDummyBufferWriteInfo s) (mDescriptorRequirements s)
    (mBoundDescriptor s) (mPipelineBoundResources s) (deviceDescriptors s)
    (deviceCalls s).
Definition setArenasCount v s :=
  mkCache (mCurrentTime s) (mPipelineLayouts s) (mPipelineRequirementsLayout s)
    (mDescriptorSets s) (mDescriptorResources s) (mDescriptorCacheEntryCount s)
    (mDescriptorPoolSize s) v (mDescriptorPool s) (mExtinctDescriptorPools s)
    (mExtinctDescriptorBundles s) (mDummyBufferWriteInfo s) (mDescriptorRequirements s)
    (mBoundDescriptor s) (mPipelineBoundResources s) (deviceDescriptors s)
    (deviceCalls s).
Definition setPool v s :=
  mkCache (mCurrentTime s) (mPipelineLayouts s) (mPipelineRequirementsLayout s)
    (mDescriptorSets s) (mDescriptorResources s) (mDescriptorCacheEntryCount s)
    (mDescriptorPoolSize s) (mDescriptorArenasCount s) v (mExtinctDescriptorPools s)
    (mExtinctDescriptorBundles s) (mDummyBufferWriteInfo s) (mDescriptorRequirements s)
    (mBoundDescriptor s) (mPipelineBoundResources s) (deviceDescriptors s)
    (deviceCalls s).
Definition setExtinctPools v s :=
  mkCache (mCurrentTime s) (mPipelineLayouts s) (mPipelineRequirementsLayout s)
    (mDescriptorSets s) (mDescriptorResources s) (mDescriptorCacheEntryCount s)
    (mDescriptorPoolSize s) (mDescriptorArenasCount s) (mDescriptorPool s) v
    (mExtinctDescriptorBundles s) (mDummyBufferWriteInfo s) (mDescriptorRequirements s)
    (mBoundDescriptor s) (mPipelineBoundResources s) (deviceDescriptors s)
    (deviceCalls s).
Definition setExtinctBundles v s :=
  mkCache (mCurrentTime s) (mPipelineLayouts s) (mPipelineRequirementsLayout s)
    (mDescriptorSets s) (mDescriptorResources s) (mDescriptorCacheEntryCount s)
    (mDescriptorPoolSize s) (mDescriptorArenasCount s) (mDescriptorPool s)
    (mExtinctDescriptorPools s) v (mDummyBufferWriteInfo s) (mDescriptorRequirements s)
    (mBoundDescriptor s) (mPipelineBoundResources s) (deviceDescriptors s)
    (deviceCalls s).
Definition setBoundDescriptor v s :=
  mkCache (mCurrentTime s) (mPipelineLayouts s) (mPipelineRequirementsLayout s)
    (mDescriptorSets s) (mDescriptorResources s) (mDescriptorCacheEntryCount s)
    (mDescriptorPoolSize s) (mDescriptorArenasCount s) (mDescriptorPool s)
    (mExtinctDescriptorPools s) (mExtinctDescriptorBundles s) (mDummyBufferWriteInfo s)
    (mDescriptorRequirements s) v (mPipelineBoundResources s) (deviceDescriptors s)
    (deviceCalls s).
Definition setDeviceDescriptors v s :=
  mkCache (mCurrentTime s) (mPipelineLayouts s) (mPipelineRequirementsLayout s)
    (mDescriptorSets s) (mDescriptorResources s) (mDescriptorCacheEntryCount s)
    (mDescriptorPoolSize s) (mDescriptorArenasCount s) (mDescriptorPool s)
    (mExtinctDescriptorPools s) (mExtinctDescriptorBundles s) (mDummyBufferWriteInfo s)
    (mDescriptorRequirements s) (mBoundDescriptor s) (mPipelineBoundResources s) v
    (deviceCalls s).
Definition setDeviceCalls v s :=
  mkCache (mCurrentTime s) (mPipelineLayouts s) (mPipelineRequirementsLayout s)
    (mDescriptorSets s) (mDescriptorResources s) (mDescriptorCacheEntryCount s)
    (mDescriptorPoolSize s) (mDescriptorArenasCount s) (mDescriptorPool s)
    (mExtinctDescriptorPools s) (mExtinctDescriptorBundles s) (mDummyBufferWriteInfo s)
    (mDescriptorRequirements s) (mBoundDescriptor s) (mPipelineBoundResources s)
    (deviceDescriptors s) v.

(** ** Maps *)

(** Lookup in a map with a user-supplied equality functor. *)
Fixpoint mapFind {K V} (eqb : K -> K -> bool) (k : K) (m : list (K * V)) : option V :=
  match m with
  | [] => None
  | (k', v) :: m' => if eqb k' k then Some v else mapFind eqb k m'
  end.

(** Apply [f] to the value stored under [k], if any. *)
Fixpoint mapUpdate {K V} (eqb : K -> K -> bool) (k : K) (f : V -> V) (m : list (K * V))
  : list (K * V) :=
  match m with
  | [] => []
  | (k', v) :: m' => if eqb k' k then (k', f v) :: m' else (k', v) :: mapUpdate eqb k f m'
  end.

(** [map.emplace(k, v)]: inserts only when [k] is absent. *)
Definition mapEmplace {K V} (eqb : K -> K -> bool) (k : K) (v : V) (m : list (K * V))
  : list (K * V) :=
  match mapFind eqb k m with
  | Some _ => m
  | None => (k, v) :: m
  end.

Definition withLastUsed (t : Z) (e : DescriptorCacheEntry) : DescriptorCacheEntry :=
  {| handles := handles e; lastUsed := t; pipelineLayout := pipelineLayout e; id := id e |}.

Definition withArenas (a : list (list Z)) (l : PipelineLayoutCacheEntry) : PipelineLayoutCacheEntry :=
  {| layoutHandle := layoutHandle l; layoutLastUsed := layoutLastUsed l;
     descriptorSetLayouts := descriptorSetLayouts l; descriptorSetArenas := a |}.

(** ** Resource managers *)

(** Modelled from the spec: [VulkanAcquireOnlyResourceManager] is not part of
    the sources.  [acquire] registers interest in a resource once;
    [acquireAll(src)] acquires every resource tracked by [src]. *)
Definition acquire (r : Z) (mgr : list Z) : list Z :=
  if existsb (Z.eqb r) mgr then mgr else mgr ++ [r].

Definition acquireAll (mgr src : list Z) : list Z :=
  fold_left (fun m r => acquire r m) src mgr.

(** ** A state monad with undefined behaviour

    [M A] threads the cache through a computation; [None] is undefined
    behaviour (dereferencing an end iterator, [back()] of an empty vector). *)

Definition M (A : Type) : Type := Cache -> option (A * Cache).

Definition ret {A} (a : A) : M A := fun s => Some (a, s).

Definition bind {A B} (m : M A) (k : A -> M B) : M B :=
  fun s => match m s with
           | Some (a, s') => k a s'
           | None => None
           end.

Notation "x <- m ;; k" := (bind m (fun x => k))
  (at level 61, m at next level, right associativity).
Notation "m ;;; k" := (bind m (fun _ => k))
  (at level 61, right associativity).

Definition get : M Cache := fun s => Some (s, s).
Definition modify (f : Cache -> Cache) : M unit := fun s => Some (tt, f s).
Definition undefined {A} : M A := fun _ => None.
Definition emit (c : VkCall) : M unit :=
  fun s => Some (tt, setDeviceCalls (deviceCalls s ++ [c]) s).

(** [container.empty()]. *)
Definition is_nil {A} (l : list A) : bool :=
  match l with [] => true | _ => false end.

(** ** Pipeline layouts and pool growth *)

(** Modelled from the spec: [getOrCreatePipelineLayout] is not part of the
    sources.  It returns the entry of the current layout key, creating the
    layout objects and an entry with [DESCRIPTOR_TYPE_COUNT] empty arenas on a
    miss. *)
Definition getOrCreatePipelineLayout (rep : VkReplies) : M PipelineLayoutCacheEntry :=
  s <- get;;
  let key := mPipelineRequirementsLayout s in
  match mapFind Z.eqb key (mPipelineLayouts s) with
  | Some e => ret e
  | None =>
      let e := {| layoutHandle := fst (replyLayout rep);
                  layoutLastUsed := mCurrentTime s;
                  descriptorSetLayouts := snd (replyLayout rep);
                  descriptorSetArenas := repeat [] DESCRIPTOR_TYPE_COUNT |} in
      emit (vkCreatePipelineLayout key);;;
      modify (setPipelineLayouts ((key, e) :: mPipelineLayouts s));;;
      ret e
  end.

(** Modelled from the spec: [growDescriptorPool] is not part of the sources.
    The old pool goes to the extinct list and a larger pool replaces it (taken
    here as twice the old capacity); the descriptor sets allocated from the
    old pool, active ones and dormant ones in the arenas, leave the cache: the
    active bundles go to the extinct list, the arenas are emptied. *)
Definition growDescriptorPool (rep : VkReplies) : M unit :=
  s <- get;;
  modify (setExtinctPools (mExtinctDescriptorPools s ++ [mDescriptorPool s]));;;
  modify (setPoolSize (mDescriptorPoolSize s * 2));;;
  emit (vkCreateDescriptorPool (mDescriptorPoolSize s * 2));;;
  modify (setPool (replyPool rep));;;
  modify (setPipelineLayouts
            (map (fun kl => (fst kl, withArenas (map (fun _ => []) (descriptorSetArenas (snd kl)))
                                                (snd kl)))
                 (mPipelineLayouts s)));;;
  modify (setArenasCount 0);;;
  modify (setExtinctBundles (mExtinctDescriptorBundles s ++ map snd (mDescriptorSets s)));;;
  modify (setDescriptorSets []).

(** ** The write phase of [createDescriptorSets] *)

(** One iteration of the uniform-buffer loop. *)
Definition uniformBufferWrite (req : DescriptorKey) (dummy : VkWriteDescriptorSet)
  (set : Z) (binding : nat) : VkWriteDescriptorSet :=
  let buf := nth binding (uniformBuffers req) VK_NULL_HANDLE in
  let writeInfo :=
    if negb (buf =? VK_NULL_HANDLE) then
      let size := nth binding (uniformBufferSizes req) 0 in
      let bufferInfo :=
        {| buffer := buf;
           offset := nth binding (uniformBufferOffsets req) 0;
           range := if size =? WHOLE_SIZE then VK_WHOLE_SIZE else size |} in
      {| dstSet := 0; dstBinding := 0; dstArrayElement := 0; descriptorCount := 1;
         descriptorType := VK_DESCRIPTOR_TYPE_UNIFORM_BUFFER;
         pImageInfo := None; pBufferInfo := Some bufferInfo |}
    else dummy in
  setDst writeInfo set (Z.of_nat binding).

(** One iteration of the sampler loop: a write only for an active slot. *)
Definition samplerWrite (req : DescriptorKey) (set : Z) (binding : nat)
  : list VkWriteDescriptorSet :=
  let info := nth binding (samplers req) zeroImageInfo in
  if negb (sampler info =? VK_NULL_HANDLE) then
    [{| dstSet := set; dstBinding := Z.of_nat binding; dstArrayElement := 0;
        descriptorCount := 1; descriptorType := VK_DESCRIPTOR_TYPE_COMBINED_IMAGE_SAMPLER;
        pImageInfo := Some (toVkImageInfo info); pBufferInfo := None |}]
  else [].

(** One iteration of the input-attachment loop. *)
Definition inputAttachmentWrite (req : DescriptorKey) (set : Z) (binding : nat)
  : list VkWriteDescriptorSet :=
  let info := nth binding (inputAttachments req) zeroImageInfo in
  if negb (imageView info =? VK_NULL_HANDLE) then
    [{| dstSet := set; dstBinding := Z.of_nat binding; dstArrayElement := 0;
        descriptorCount := 1; descriptorType := VK_DESCRIPTOR_TYPE_INPUT_ATTACHMENT;
        pImageInfo := Some (toVkImageInfo info); pBufferInfo := None |}]
  else [].

(** [descriptorWrites[0 .. nwrites)] for the sets [hs], built from
    [mDescriptorRequirements] and [mDummyBufferWriteInfo]. *)
Definition descriptorWrites (req : DescriptorKey) (dummy : VkWriteDescriptorSet) (hs : list Z)
  : list VkWriteDescriptorSet :=
  map (uniformBufferWrite req dummy (nth 0 hs VK_NULL_HANDLE)) (seq 0 UBUFFER_BINDING_COUNT) ++
  flat_map (samplerWrite req (nth 1 hs VK_NULL_HANDLE)) (seq 0 SAMPLER_BINDING_COUNT) ++
  flat_map (inputAttachmentWrite req (nth 2 hs VK_NULL_HANDLE)) (seq 0 INPUT_ATTACHMENT_COUNT).

(** The device side of [vkUpdateDescriptorSets]: each write replaces the
    descriptor at its (set, binding). *)
Definition applyWrites (writes : list VkWriteDescriptorSet)
  (store : list ((Z * Z) * VkWriteDescriptorSet)) : list ((Z * Z) * VkWriteDescriptorSet) :=
  fold_left (fun st w => ((dstSet w, dstBinding w), w) :: st) writes store.

Definition pairEqb (a b : Z * Z) : bool := (fst a =? fst b) && (snd a =? snd b).

(** The descriptor the device holds at a (set, binding). *)
Definition deviceDescriptor (s : Cache) (set binding : Z) : option VkWriteDescriptorSet :=
  mapFind pairEqb (set, binding) (deviceDescriptors s).

(** ** createDescriptorSets *)

(** [arenas[i].back(); arenas[i].pop_back();] for every arena. *)
Fixpoint popArenas (arenas : list (list Z)) : option (list Z * list (list Z)) :=
  match arenas with
  | [] => Some ([], [])
  | a :: rest =>
      match rev a, popArenas rest with
      | x :: r, Some (hs, rest') => Some (x :: hs, rev r :: rest')
      | _, _ => None
      end
  end.

Definition createDescriptorSets (rep : VkReplies) : M (option DescriptorCacheEntry) :=
  layoutCacheEntry <- getOrCreatePipelineLayout rep;;
  s <- get;;
  let layoutKey := mPipelineRequirementsLayout s in
  let entryId := mDescriptorCacheEntryCount s in
  modify (setEntryCount (wrap32 (entryId + 1)));;;
  let descriptorSetArenas := descriptorSetArenas layoutCacheEntry in
  allocated <-
    (if is_nil (nth 0 descriptorSetArenas []) then
       s <- get;;
       (if Z.of_nat (length (mDescriptorSets s)) + mDescriptorArenasCount s + 1
             >? mDescriptorPoolSize s
        then growDescriptorPool rep else ret tt);;;
       s <- get;;
       emit (vkAllocateDescriptorSets (mDescriptorPool s)
               (descriptorSetLayouts layoutCacheEntry));;;
       ret (replyAllocate rep)
     else
       match popArenas descriptorSetArenas with
       | None => undefined
       | Some (hs, arenas') =>
           s <- get;;
           modify (setPipelineLayouts
                     (mapUpdate Z.eqb layoutKey (withArenas arenas') (mPipelineLayouts s)));;;
           modify (setArenasCount (wrap32 (mDescriptorArenasCount s - 1)));;;
           ret (Some hs)
       end);;
  match allocated with
  | None => ret None
  | Some hs =>
      let descriptorCacheEntry :=
        {| handles := hs; lastUsed := 0; pipelineLayout := layoutKey; id := entryId |} in
      s <- get;;
      let writes := descriptorWrites (mDescriptorRequirements s) (mDummyBufferWriteInfo s) hs in
      emit (vkUpdateDescriptorSets writes);;;
      modify (setDeviceDescriptors (applyWrites writes (deviceDescriptors s)));;;
      let req := mDescriptorRequirements s in
      modify (setDescriptorSets (mapEmplace DescEqual req descriptorCacheEntry
                                            (mDescriptorSets s)));;;
      s <- get;;
      match mapFind DescEqual req (mDescriptorSets s) with
      | Some e => ret (Some e)
      | None => undefined
      end
  end.

(** ** bindDescriptors *)

Definition bindDescriptors (rep : VkReplies) : M bool :=
  s <- get;;
  let req := mDescriptorRequirements s in
  let descriptorIter := mapFind DescEqual req (mDescriptorSets s) in
  if DescEqual (mBoundDescriptor s) req && negb (is_nil (mDescriptorSets s)) then
    match descriptorIter with
    | Some _ =>
        modify (setDescriptorSets
                  (mapUpdate DescEqual req (withLastUsed (mCurrentTime s)) (mDescriptorSets s)));;;
        ret true
    | None => undefined
    end
  else
    cacheEntry <- (match descriptorIter with
                   | Some e => ret (Some e)
                   | None => createDescriptorSets rep
                   end);;
    match cacheEntry with
    | None => ret false
    | Some e =>
        s <- get;;
        modify (setDescriptorSets
                  (mapUpdate DescEqual req (withLastUsed (mCurrentTime s)) (mDescriptorSets s)));;;
        modify (setBoundDescriptor req);;;
        s <- get;;
        (match mapFind Z.eqb (id e) (mDescriptorResources s) with
         | Some _ => ret tt
         | None => modify (setDescriptorResources ((id e, []) :: mDescriptorResources s))
         end);;;
        s <- get;;
        modify (setDescriptorResources
                  (mapUpdate Z.eqb (id e) (fun mgr => acquireAll mgr (mPipelineBoundResources s))
                             (mDescriptorResources s)));;;
        layoutCacheEntry <- getOrCreatePipelineLayout rep;;
        emit (vkCmdBindDescriptorSets (layoutHandle layoutCacheEntry) (handles e));;;
        ret true
    end.

(** ** Concrete states *)

(** [mDummyBufferWriteInfo] as the constructor fills it: value-initialised
    ([dstSet] and [dstBinding] are 0), pointing at the dummy buffer 99. *)
Definition exampleDummyWrite : VkWriteDescriptorSet :=
  {| dstSet := 0; dstBinding := 0; dstArrayElement := 0; descriptorCount := 1;
     descriptorType := VK_DESCRIPTOR_TYPE_UNIFORM_BUFFER; pImageInfo := None;
     pBufferInfo := Some {| buffer := 99; offset := 0; range := VK_WHOLE_SIZE |} |}.

Definition exampleLayout (arenas : list (list Z)) : PipelineLayoutCacheEntry :=
  {| layoutHandle := 70; layoutLastUsed := 0; descriptorSetLayouts := [71; 72; 73];
     descriptorSetArenas := arenas |}.

(** Buffer 11 bound whole at uniform slot 0, nothing else. *)
Definition keyA : DescriptorKey :=
  {| uniformBuffers := 11 :: repeat 0 9;
     samplers := repeat zeroImageInfo SAMPLER_BINDING_COUNT;
     inputAttachments := repeat zeroImageInfo INPUT_ATTACHMENT_COUNT;
     uniformBufferOffsets := repeat 0 UBUFFER_BINDING_COUNT;
     uniformBufferSizes := WHOLE_SIZE :: repeat 0 9 |}.

(** Buffer 12 with 256 bytes at uniform slot 0 and a sampler at slot 0. *)
Definition keyB : DescriptorKey :=
  {| uniformBuffers := 12 :: repeat 0 9;
     samplers := {| sampler := 5; imageView := 6; imageLayout := 1; padding := 0 |}
                 :: repeat zeroImageInfo 61;
     inputAttachments := repeat zeroImageInfo INPUT_ATTACHMENT_COUNT;
     uniformBufferOffsets := repeat 0 UBUFFER_BINDING_COUNT;
     uniformBufferSizes := 256 :: repeat 0 9 |}.

Definition exampleEntry : DescriptorCacheEntry :=
  {| handles := [41; 42; 43]; lastUsed := 3; pipelineLayout := 7; id := 0 |}.

(** A fresh cache at time 5 whose layout 7 exists with the given arenas. *)
Definition exampleCache (arenas : list (list Z)) (arenasCount : Z)
  (ds : list (DescriptorKey * DescriptorCacheEntry)) (poolSize : Z)
  (req bound : DescriptorKey) (res : list (Z * list Z))
  (device : list ((Z * Z) * VkWriteDescriptorSet)) : Cache :=
  mkCache 5 [(7, exampleLayout arenas)] 7 ds res (Z.of_nat (length ds)) poolSize arenasCount
    1 [] [] exampleDummyWrite req bound [500] device [].

Definition repOk : VkReplies :=
  {| replyAllocate := Some [21; 22; 23]; replyPool := 2; replyLayout := (80, [81; 82; 83]) |}.
Definition repFail : VkReplies :=
  {| replyAllocate := None; replyPool := 2; replyLayout := (80, [81; 82; 83]) |}.

(** A pipeline key: two shader modules, a three-float vertex attribute read
    from buffer 0 with a 12-byte stride, default raster state. *)
Definition exampleRasterState : Pipeline.RasterState :=
  {| Pipeline.cullMode := 2; Pipeline.frontFace := 0; Pipeline.depthBiasEnable := 0;
     Pipeline.blendEnable := 0; Pipeline.depthWriteEnable := 1;
     Pipeline.alphaToCoverageEnable := 0; Pipeline.srcColorBlendFactor := 1;
     Pipeline.dstColorBlendFactor := 0; Pipeline.srcAlphaBlendFactor := 1;
     Pipeline.dstAlphaBlendFactor := 0; Pipeline.colorWriteMask := 15;
     Pipeline.rasterizationSamples := 1; Pipeline.colorTargetCount := 1;
     Pipeline.colorBlendOp := 0; Pipeline.alphaBlendOp := 0; Pipeline.depthCompareOp := 1;
     Pipeline.depthBiasConstantFactor := 0; Pipeline.depthBiasSlopeFactor := 0 |}.

Definition examplePipelineKey : Pipeline.PipelineKey :=
  {| Pipeline.shaders := [1; 2]; Pipeline.renderPass := 3; Pipeline.topology := 3;
     Pipeline.subpassIndex := 0;
     Pipeline.vertexAttributes :=
       Pipeline.assignAttribute
         {| Pipeline.vkLocation := 0; Pipeline.vkAttrBinding := 0;
            Pipeline.vkFormat := 106; Pipeline.vkAttrOffset := 0 |}
       :: repeat (Pipeline.assignAttribute
                    {| Pipeline.vkLocation := 0; Pipeline.vkAttrBinding := 0;
                       Pipeline.vkFormat := 0; Pipeline.vkAttrOffset := 0 |}) 15;
     Pipeline.vertexBuffers :=
       Pipeline.assignBinding
         {| Pipeline.vkBinding := 0; Pipeline.vkStride := 12; Pipeline.vkInputRate := 0 |}
       :: repeat (Pipeline.assignBinding
                    {| Pipeline.vkBinding := 0; Pipeline.vkStride := 0;
                       Pipeline.vkInputRate := 0 |}) 15;
     Pipeline.rasterState := exampleRasterState; Pipeline.padding := 0; Pipeline.layout := 1 |}.

(** First draw on an empty cache, requesting [keyA]. *)
Definition cacheEmpty : Cache :=
  exampleCache [[]; []; []] 0 [] INITIAL_DESCRIPTOR_SET_POOL_SIZE keyA zeroDescriptorKey [] [].

(** [keyA] is cached and bound. *)
Definition cacheBound : Cache :=
  exampleCache [[]; []; []] 0 [(keyA, exampleEntry)] INITIAL_DESCRIPTOR_SET_POOL_SIZE
    keyA keyA [(0, [])] [].

(** One active entry ([keyB]) in a pool of capacity 1; [keyA] is requested. *)
Definition cacheFull : Cache :=
  exampleCache [[]; []; []] 0 [(keyB, exampleEntry)] 1 keyA keyB [(0, [])] [].

(** A write of [keyB]'s sampler to binding 0 of set 32. *)
Definition staleSamplerWrite : VkWriteDescriptorSet :=
  {| dstSet := 32; dstBinding := 0; dstArrayElement := 0; descriptorCount := 1;
     descriptorType := VK_DESCRIPTOR_TYPE_COMBINED_IMAGE_SAMPLER;
     pImageInfo := Some {| vkSampler := 5; vkImageView := 6; vkImageLayout := 1 |};
     pBufferInfo := None |}.

(** Sets 31, 32, 33 were reclaimed into the arenas after serving [keyB]; the
    device still holds [keyB]'s sampler in set 32; [keyA] is requested. *)
Definition cacheReclaimed : Cache :=
  exampleCache [[31]; [32]; [33]] 1 [] INITIAL_DESCRIPTOR_SET_POOL_SIZE keyA keyB []
    [((32, 0), staleSamplerWrite)].

(** [keyA] is cached but [keyB] is bound. *)
Definition cacheUnbound : Cache :=
  exampleCache [[]; []; []] 0 [(keyA, exampleEntry)] INITIAL_DESCRIPTOR_SET_POOL_SIZE
    keyA keyB [(0, [])] [].

(** ** Observers used by the statements *)

(** The calls a computation adds to the device log. *)
Definition newCalls (s s' : Cache) : list VkCall :=
  skipn (length (deviceCalls s)) (deviceCalls s').

Definition isPoolCreation (c : VkCall) : bool :=
  match c with vkCreateDescriptorPool _ => true | _ => false end.
Definition isAllocation (c : VkCall) : bool :=
  match c with vkAllocateDescriptorSets _ _ => true | _ => false end.
Definition isUpdate (c : VkCall) : bool :=
  match c with vkUpdateDescriptorSets _ => true | _ => false end.
Definition isBind (c : VkCall) : bool :=
  match c with vkCmdBindDescriptorSets _ _ => true | _ => false end.

(** Number of [growDescriptorPool] invocations in a call log (each creates one pool). *)
Definition growthEvents (calls : list VkCall) : nat := length (filter isPoolCreation calls).

(** The fast-path condition of [bindDescriptors]. *)
Definition fastPath (s : Cache) : bool :=
  DescEqual (mBoundDescriptor s) (mDescriptorRequirements s) && negb (is_nil (mDescriptorSets s)).

(** The arenas [getOrCreatePipelineLayout] hands to [createDescriptorSets]. *)
Definition currentArenas (s : Cache) : list (list Z) :=
  match mapFind Z.eqb (mPipelineRequirementsLayout s) (mPipelineLayouts s) with
  | Some l => descriptorSetArenas l
  | None => repeat [] DESCRIPTOR_TYPE_COUNT
  end.

(** Pool-growth condition of [createDescriptorSets]. *)
Definition poolOverflow (s : Cache) : bool :=
  Z.of_nat (length (mDescriptorSets s)) + mDescriptorArenasCount s + 1 >? mDescriptorPoolSize s.

(** The (set, binding) a write targets. *)
Definition target (w : VkWriteDescriptorSet) : Z * Z := (dstSet w, dstBinding w).

Definition activeSampler (req : DescriptorKey) (binding : nat) : bool :=
  negb (sampler (nth binding (samplers req) zeroImageInfo) =? VK_NULL_HANDLE).

Definition activeInputAttachment (req : DescriptorKey) (binding : nat) : bool :=
  negb (imageView (nth binding (inputAttachments req) zeroImageInfo) =? VK_NULL_HANDLE).

(** The uniform-buffer write the spec describes for one binding slot: the
    buffer, its offset and its size (the internal whole-size sentinel mapped to
    [VK_WHOLE_SIZE]) for an active slot, the pre-built dummy write aimed at
    this slot of the uniform set for an inactive one. *)
Definition specUniformWrite (req : DescriptorKey) (dummy : VkWriteDescriptorSet) (set : Z)
  (binding : nat) : VkWriteDescriptorSet :=
  let buf := nth binding (uniformBuffers req) VK_NULL_HANDLE in
  let size := nth binding (uniformBufferSizes req) 0 in
  if buf =? VK_NULL_HANDLE then setDst dummy set (Z.of_nat binding)
  else {| dstSet := set; dstBinding := Z.of_nat binding; dstArrayElement := 0;
          descriptorCount := 1; descriptorType := VK_DESCRIPTOR_TYPE_UNIFORM_BUFFER;
          pImageInfo := None;
          pBufferInfo := Some {| buffer := buf;
                                 offset := nth binding (uniformBufferOffsets req) 0;
                                 range := if size =? WHOLE_SIZE then VK_WHOLE_SIZE else size |} |}.

(** ** Unfolding the monad *)

(** The arenas of a layout entry are balanced: [DESCRIPTOR_TYPE_COUNT] of them,
    all as long as the first. *)
Definition arenasBalanced (arenas : list (list Z)) : bool :=
  (length arenas =? DESCRIPTOR_TYPE_COUNT)%nat &&
  forallb (fun a => length a =? length (nth 0 arenas []))%nat arenas.

Definition layoutsBalanced (layouts : list (Z * PipelineLayoutCacheEntry)) : bool :=
  forallb (fun kl => arenasBalanced (descriptorSetArenas (snd kl))) layouts.

(** The ids of every descriptor cache entry created so far: the active ones
    and those retired to the extinct list. *)
Definition entryIds (s : Cache) : list Z :=
  map id (map snd (mDescriptorSets s) ++ mExtinctDescriptorBundles s).

(** Ids are fresh: pairwise distinct, all below the counter, and the per-id
    resource map has at most one tracker per id. *)
Definition idsFresh (s : Cache) : Prop :=
  0 <= mDescriptorCacheEntryCount s /\
  NoDup (entryIds s) /\
  Forall (fun i => 0 <= i < mDescriptorCacheEntryCount s) (entryIds s) /\
  NoDup (map fst (mDescriptorResources s)).

(** Dormant descriptor-set bundles: the sets waiting in the first arena of
    every pipeline layout. *)
Definition dormantSets (layouts : list (Z * PipelineLayoutCacheEntry)) : nat :=
  fold_right (fun kl n => (length (nth 0 (descriptorSetArenas (snd kl)) []) + n)%nat) 0%nat
    layouts.

(** The pool bookkeeping: [mDescriptorArenasCount] counts the dormant bundles
    (as a uint32_t), and the active bundles of [mDescriptorSets] together with
    the dormant ones fit in a pool of non-zero size. *)
Definition poolAccounting (s : Cache) : Prop :=
  Z.of_nat (dormantSets (mPipelineLayouts s)) = mDescriptorArenasCount s /\
  mDescriptorArenasCount s < 2 ^ 32 /\
  1 <= mDescriptorPoolSize s /\
  Z.of_nat (length (mDescriptorSets s)) + mDescriptorArenasCount s <= mDescriptorPoolSize s.

Arguments layoutsBalanced : simpl never.
Arguments dormantSets : simpl never.
Arguments DescEqual : simpl never.
Arguments descriptorWrites : simpl never.
Arguments applyWrites : simpl never.
Arguments wrap32 : simpl never.
Arguments acquireAll : simpl never.

Ltac unfold_cache :=
  unfold bindDescriptors, createDescriptorSets, growDescriptorPool,
    getOrCreatePipelineLayout, bind, ret, get, modify, emit, undefined in *.

Ltac simpl_cache :=
  cbn -[DescEqual descriptorWrites applyWrites wrap32 acquireAll] in *.

Ltac crunch_step :=
  match goal with
  | H : Some _ = Some _ |- _ => injection H as; subst
  | H : None = Some _ |- _ => discriminate H
  | H : Some _ = None |- _ => discriminate H
  | H : true = false |- _ => discriminate H
  | H : false = true |- _ => discriminate H
  | H : context [match ?x with _ => _ end] |- _ =>
      lazymatch x with
      | Build_Cache _ _ _ _ _ _ _ _ _ _ _ _ _ _ _ _ _ => fail
      | _ => destruct x eqn:?
      end
  end.

Ltac crunch := simpl_cache; repeat (crunch_step; simpl_cache).

(** ** General lemmas *)

Lemma memcmp_refl (l : list Z) : memcmp l l = 0.
Proof. induction l as [|x l IH]; simpl; [reflexivity|]. rewrite Z.eqb_refl. exact IH. Qed.

Lemma DescEqual_refl (k : DescriptorKey) : DescEqual k k = true.
Proof. unfold DescEqual, memcmpEqual. rewrite memcmp_refl. reflexivity. Qed.

Lemma memcmp_zero_eq (a b : list Z) :
  length a = length b -> memcmp a b = 0 -> a = b.
Proof.
  revert b; induction a as [|x a IH]; intros [|y b] Hl H; simpl in *; try congruence.
  destruct (Z.eqb_spec x y) as [->|Hxy].
  - f_equal. apply IH; congruence.
  - lia.
Qed.

Lemma memoryImage_length (n : nat) (l : list Z) : length (memoryImage n l) = n.
Proof. unfold memoryImage. rewrite length_map, length_seq. reflexivity. Qed.

(** Equality under a [memcmp] functor is equality of the memory images. *)
Lemma memcmpEqual_spec (n : nat) (b1 b2 : list Z) :
  memcmpEqual n b1 b2 = true <-> memoryImage n b1 = memoryImage n b2.
Proof.
  unfold memcmpEqual. rewrite Z.eqb_eq. split.
  - apply memcmp_zero_eq. rewrite !memoryImage_length. reflexivity.
  - intros ->. apply memcmp_refl.
Qed.

Lemma mapFind_update_same {K V} (eqb : K -> K -> bool) (k : K) (f : V -> V) m :
  mapFind eqb k (mapUpdate eqb k f m) = option_map f (mapFind eqb k m).
Proof.
  induction m as [|[k' v] m IH]; simpl; [reflexivity|].
  destruct (eqb k' k) eqn:E; simpl; rewrite ?E; [reflexivity|exact IH].
Qed.

Lemma mapFind_emplace_new {K V} (eqb : K -> K -> bool) (k : K) (v : V) m :
  mapFind eqb k m = None -> eqb k k = true ->
  mapFind eqb k (mapEmplace eqb k v m) = Some v.
Proof. intros Hm Hk. unfold mapEmplace. rewrite Hm. cbn. rewrite Hk. reflexivity. Qed.

Ltac emplaced_entry :=
  match goal with
  | H : mapFind DescEqual ?k (mapEmplace DescEqual ?k ?v ?m) = Some ?e |- _ =>
      rewrite mapFind_emplace_new in H;
      [injection H as <- | first [assumption | reflexivity] | apply DescEqual_refl]
  end.

Lemma mapUpdate_keys {K V} (eqb : K -> K -> bool) (k : K) (f : V -> V) m :
  map fst (mapUpdate eqb k f m) = map fst m.
Proof.
  induction m as [|[k' v] m IH]; simpl; [reflexivity|].
  destruct (eqb k' k); simpl; f_equal; auto.
Qed.

Lemma mapUpdate_nil {K V} (eqb : K -> K -> bool) (k : K) (f : V -> V) m :
  is_nil (mapUpdate eqb k f m) = is_nil m.
Proof. destruct m as [|[k' v] m]; simpl; [reflexivity|]. destruct (eqb k' k); reflexivity. Qed.

(** ** C1: the fast path of bindDescriptors *)

(** Claim C1.  When the requested key equals the bound key and the
    descriptor-set map is non-empty, [bindDescriptors] makes no device call and
    changes nothing but the [lastUsed] of the matching entry, which it sets to
    the current time, and returns true (when no entry matches, which the code
    asserts cannot happen, the dereference is undefined).  When the map is
    empty the fast path is not taken: a successful call creates the sets
    (writes them with [vkUpdateDescriptorSets]) and ends by binding them; a
    failed one has attempted an allocation. *)
Theorem bindDescriptors_fast_path (rep : VkReplies) (s : Cache) :
  DescEqual (mBoundDescriptor s) (mDescriptorRequirements s) = true ->
  (mDescriptorSets s <> [] ->
   bindDescriptors rep s =
     match mapFind DescEqual (mDescriptorRequirements s) (mDescriptorSets s) with
     | Some _ =>
         Some (true, setDescriptorSets
                       (mapUpdate DescEqual (mDescriptorRequirements s)
                          (withLastUsed (mCurrentTime s)) (mDescriptorSets s)) s)
     | None => None
     end) /\
  (mDescriptorSets s = [] -> forall r s',
   bindDescriptors rep s = Some (r, s') ->
   exists calls, deviceCalls s' = deviceCalls s ++ calls /\
     (r = true -> existsb isUpdate calls = true /\
                  exists lh hs, last calls (vkUpdateDescriptorSets []) = vkCmdBindDescriptorSets lh hs) /\
     (r = false -> existsb isAllocation calls = true)).
Proof.
  intros Heq. split.
  - intros Hne. destruct s as [t pl prl ds dr cnt ps ac p ep eb dw req bd pbr dd dc];
      cbn in *.
    assert (Hnil : is_nil ds = false) by (destruct ds; [congruence|reflexivity]).
    unfold_cache. cbn -[mapFind mapUpdate]. rewrite Heq, Hnil. cbn -[mapFind mapUpdate].
    destruct (mapFind DescEqual req ds); reflexivity.
  - intros Hemp r s' Hrun.
    destruct s as [t pl prl ds dr cnt ps ac p ep eb dw req bd pbr dd dc]; cbn in *; subst.
    unfold_cache. crunch.
    all: eexists; split; [rewrite <- ?app_assoc; reflexivity|].
    all: split; intros; try discriminate.
    all: first [split; [reflexivity | do 2 eexists; reflexivity] | reflexivity].
Qed.

(** Rewrite the goal with the equations [crunch] recorded. *)
Ltac use_eqns :=
  repeat match goal with
  | H : ?a = _ |- context [?a] => lazymatch a with Build_Cache _ _ _ _ _ _ _ _ _ _ _ _ _ _ _ _ _ => fail | _ => rewrite H end
  end.

(** ** C2: when createDescriptorSets grows the pool *)

(** Claim C2.  One run of [createDescriptorSets] invokes [growDescriptorPool]
    (counted by the pool it creates) exactly once when the layout's first
    arena is empty and [mDescriptorSets.size() + mDescriptorArenasCount + 1 >
    mDescriptorPoolSize], and never otherwise; so a run never grows the pool
    twice. *)
Theorem createDescriptorSets_growth (rep : VkReplies) (s s' : Cache) r :
  createDescriptorSets rep s = Some (r, s') ->
  exists calls, deviceCalls s' = deviceCalls s ++ calls /\
    growthEvents calls =
      (if is_nil (nth 0 (currentArenas s) []) && poolOverflow s then 1 else 0)%nat.
Proof.
  intros Hrun.
  destruct s as [t pl prl ds dr cnt ps ac p ep eb dw req bd pbr dd dc].
  unfold currentArenas, poolOverflow. unfold_cache. crunch.
  all: eexists; split; [rewrite <- ?app_assoc; reflexivity|].
  all: use_eqns; simpl_cache; use_eqns; reflexivity.
Qed.

(** ** C3: allocation failure *)

(** Claim C3, refuted: when the pool must grow before the failing allocation,
    the growth has already emptied the descriptor-set map, so a failed
    [bindDescriptors] does not leave the cache maps unchanged. *)
Lemma bindDescriptors_failure_changes_map :
  match bindDescriptors repFail cacheFull with
  | Some (false, s') => mDescriptorSets s' = [] /\ mDescriptorSets cacheFull <> []
  | _ => False
  end.
Proof. vm_compute. split; [reflexivity | discriminate]. Qed.

(** What a failed [bindDescriptors] leaves behind: the allocation failed; the
    bound key and the per-id resource map are as they were, no entry for the
    requested key was inserted, and the descriptor-set map is unchanged unless
    the pool had to grow first (active + dormant + 1 > capacity): then every
    active entry, with its [lastUsed], has moved to the extinct list and the
    map is empty. *)
Lemma bindDescriptors_false_frame (rep : VkReplies) (s s' : Cache) :
  bindDescriptors rep s = Some (false, s') ->
  replyAllocate rep = None /\
  mBoundDescriptor s' = mBoundDescriptor s /\
  mDescriptorResources s' = mDescriptorResources s /\
  mapFind DescEqual (mDescriptorRequirements s) (mDescriptorSets s') = None /\
  ((poolOverflow s = false /\ mDescriptorSets s' = mDescriptorSets s /\
    mExtinctDescriptorBundles s' = mExtinctDescriptorBundles s) \/
   (poolOverflow s = true /\ mDescriptorSets s' = [] /\
    mExtinctDescriptorBundles s' = mExtinctDescriptorBundles s ++ map snd (mDescriptorSets s))).
Proof.
  intros Hrun.
  destruct s as [t pl prl ds dr cnt ps ac p ep eb dw req bd pbr dd dc].
  unfold poolOverflow. unfold_cache. crunch.
  all: use_eqns.
  all: repeat (split; [reflexivity|]).
  all: first [left; repeat split; reflexivity | right; repeat split; reflexivity].
Qed.

(** A failed allocation (the first arena is empty, so the sets are allocated,
    and the device refuses) makes [createDescriptorSets] return null without
    inserting anything. *)
Lemma createDescriptorSets_alloc_failure (rep : VkReplies) (s : Cache) :
  replyAllocate rep = None ->
  is_nil (nth 0 (currentArenas s) []) = true ->
  exists s1, createDescriptorSets rep s = Some (None, s1) /\
    (mDescriptorSets s1 = mDescriptorSets s \/ mDescriptorSets s1 = []) /\
    mBoundDescriptor s1 = mBoundDescriptor s /\
    mDescriptorResources s1 = mDescriptorResources s.
Proof.
  intros Hrep Hempty.
  destruct s as [t pl prl ds dr cnt ps ac p ep eb dw req bd pbr dd dc].
  unfold currentArenas in Hempty; cbn in Hempty.
  unfold createDescriptorSets, growDescriptorPool, getOrCreatePipelineLayout,
    bind, ret, get, modify, emit.
  cbn -[DescEqual descriptorWrites applyWrites wrap32 mapFind].
  destruct (mapFind Z.eqb prl pl) as [l|];
    cbn -[DescEqual descriptorWrites applyWrites wrap32 mapFind];
    rewrite ?Hempty; destruct (_ >? _); cbn -[DescEqual descriptorWrites applyWrites wrap32 mapFind];
    rewrite Hrep; (eexists; split; [reflexivity|]); cbn; auto.
Qed.

(** On a miss off the fast path, [bindDescriptors] returns false when
    [createDescriptorSets] returns null, in the state it leaves. *)
Lemma bindDescriptors_miss (rep : VkReplies) (s s1 : Cache) :
  fastPath s = false ->
  mapFind DescEqual (mDescriptorRequirements s) (mDescriptorSets s) = None ->
  createDescriptorSets rep s = Some (None, s1) ->
  bindDescriptors rep s = Some (false, s1).
Proof.
  intros Hslow Hmiss Hc. unfold fastPath in Hslow.
  unfold bindDescriptors, bind at 1, get. rewrite Hslow, Hmiss.
  unfold bind. rewrite Hc. reflexivity.
Qed.


(** Claim C3, as the code does it.  When the allocation is attempted (the
    layout's first arena is empty) and fails, [createDescriptorSets] returns
    null and, on a miss off the fast path, [bindDescriptors] returns false in
    the state it leaves.  Conversely a [bindDescriptors] that returns false
    has met a failed allocation; it leaves the bound key and the per-id
    resource map as they were, inserts no entry for the requested key, and
    leaves the descriptor-set map unchanged, unless the pool had to grow first
    (active + dormant + 1 > capacity): then every active entry, with its
    [lastUsed], has moved to the extinct list and the map is empty. *)
Theorem bindDescriptors_failure (rep : VkReplies) (s : Cache) :
  (replyAllocate rep = None ->
   is_nil (nth 0 (currentArenas s) []) = true ->
   exists s1, createDescriptorSets rep s = Some (None, s1) /\
     (mDescriptorSets s1 = mDescriptorSets s \/ mDescriptorSets s1 = []) /\
     (fastPath s = false ->
      mapFind DescEqual (mDescriptorRequirements s) (mDescriptorSets s) = None ->
      bindDescriptors rep s = Some (false, s1))) /\
  (forall s', bindDescriptors rep s = Some (false, s') ->
   replyAllocate rep = None /\
   mBoundDescriptor s' = mBoundDescriptor s /\
   mDescriptorResources s' = mDescriptorResources s /\
   mapFind DescEqual (mDescriptorRequirements s) (mDescriptorSets s') = None /\
   ((poolOverflow s = false /\ mDescriptorSets s' = mDescriptorSets s /\
     mExtinctDescriptorBundles s' = mExtinctDescriptorBundles s) \/
    (poolOverflow s = true /\ mDescriptorSets s' = [] /\
     mExtinctDescriptorBundles s' = mExtinctDescriptorBundles s ++ map snd (mDescriptorSets s)))).
Proof.
  split.
  - intros Hrep Hempty.
    destruct (createDescriptorSets_alloc_failure rep s Hrep Hempty) as (s1 & Hc & Hds & _).
    exists s1. split; [exact Hc|]. split; [exact Hds|].
    intros Hslow Hmiss. exact (bindDescriptors_miss rep s s1 Hslow Hmiss Hc).
  - intros s'. apply bindDescriptors_false_frame.
Qed.

(** ** C4: which slots a new or reused set gets rewritten *)

Lemma samplerWrites_targets (req : DescriptorKey) (set : Z) (l : list nat) :
  map target (flat_map (samplerWrite req set) l) =
  map (fun b => (set, Z.of_nat b)) (filter (activeSampler req) l).
Proof.
  induction l as [|b l IH]; [reflexivity|].
  cbn [flat_map filter]. unfold samplerWrite, activeSampler.
  destruct (negb _); cbn [app map]; [f_equal|]; exact IH.
Qed.

Lemma inputAttachmentWrites_targets (req : DescriptorKey) (set : Z) (l : list nat) :
  map target (flat_map (inputAttachmentWrite req set) l) =
  map (fun b => (set, Z.of_nat b)) (filter (activeInputAttachment req) l).
Proof.
  induction l as [|b l IH]; [reflexivity|].
  cbn [flat_map filter]. unfold inputAttachmentWrite, activeInputAttachment.
  destruct (negb _); cbn [app map]; [f_equal|]; exact IH.
Qed.

(** The slots the batched update writes: every uniform binding of the
    uniform set, and the active sampler and input-attachment bindings. *)
Lemma descriptorWrites_targets (req : DescriptorKey) (dummy : VkWriteDescriptorSet) (hs : list Z) :
  map target (descriptorWrites req dummy hs) =
  map (fun b => (nth 0 hs VK_NULL_HANDLE, Z.of_nat b)) (seq 0 UBUFFER_BINDING_COUNT) ++
  map (fun b => (nth 1 hs VK_NULL_HANDLE, Z.of_nat b))
      (filter (activeSampler req) (seq 0 SAMPLER_BINDING_COUNT)) ++
  map (fun b => (nth 2 hs VK_NULL_HANDLE, Z.of_nat b))
      (filter (activeInputAttachment req) (seq 0 INPUT_ATTACHMENT_COUNT)).
Proof.
  unfold descriptorWrites. rewrite !map_app, samplerWrites_targets, inputAttachmentWrites_targets.
  rewrite map_map. reflexivity.
Qed.

Lemma pairEqb_true (a b : Z * Z) : pairEqb a b = true -> a = b.
Proof.
  destruct a as [a1 a2], b as [b1 b2]; unfold pairEqb; cbn.
  rewrite andb_true_iff, !Z.eqb_eq. intros [-> ->]. reflexivity.
Qed.

(** A slot no write targets keeps what the device held. *)
Lemma applyWrites_untouched (ws : list VkWriteDescriptorSet) store (slot : Z * Z) :
  ~ In slot (map target ws) ->
  mapFind pairEqb slot (applyWrites ws store) = mapFind pairEqb slot store.
Proof.
  unfold applyWrites. revert store.
  induction ws as [|w ws IH]; intros store Hnot; [reflexivity|].
  cbn [fold_left]. rewrite IH by (intro Hin; apply Hnot; right; exact Hin).
  cbn. destruct (pairEqb (dstSet w, dstBinding w) slot) eqn:E; [|reflexivity].
  exfalso. apply Hnot. left. apply pairEqb_true in E. exact E.
Qed.

(** Claim C4, a defect of the code: sets 31, 32, 33 are taken from the
    arenas for [keyA], which has no sampler; the sampler [keyB] wrote into
    binding 0 of set 32 during its previous use is still there when the set is
    bound again, although the code sets out to rewrite every binding of the
    new sets. *)
Lemma reused_set_keeps_stale_sampler :
  match bindDescriptors repOk cacheReclaimed with
  | Some (true, s') =>
      deviceDescriptor s' 32 0 = Some staleSamplerWrite /\
      option_map handles (mapFind DescEqual keyA (mDescriptorSets s')) = Some [31; 32; 33] /\
      In (vkCmdBindDescriptorSets 70 [31; 32; 33]) (deviceCalls s')
  | _ => False
  end.
Proof. vm_compute. split; [reflexivity | split; [reflexivity | right; left; reflexivity]]. Qed.

(** Claim C4, what the code does instead.  On a miss, the new (fresh or reused) sets
    are written in one batch covering every uniform binding of the uniform set
    ([handles[0]]), but only the active sampler bindings of the sampler set
    ([handles[1]]) and the active input-attachment bindings of the
    input-attachment set ([handles[2]]); every (set, binding) outside the batch
    keeps what the device held before, so an inactive sampler or
    input-attachment slot of a reused set keeps its previous binding. *)
Theorem createDescriptorSets_rewritten_slots (rep : VkReplies) (s s' : Cache) e :
  mapFind DescEqual (mDescriptorRequirements s) (mDescriptorSets s) = None ->
  createDescriptorSets rep s = Some (Some e, s') ->
  let ws := descriptorWrites (mDescriptorRequirements s) (mDummyBufferWriteInfo s) (handles e) in
  deviceDescriptors s' = applyWrites ws (deviceDescriptors s) /\
  map target ws =
    map (fun b => (nth 0 (handles e) VK_NULL_HANDLE, Z.of_nat b)) (seq 0 UBUFFER_BINDING_COUNT) ++
    map (fun b => (nth 1 (handles e) VK_NULL_HANDLE, Z.of_nat b))
        (filter (activeSampler (mDescriptorRequirements s)) (seq 0 SAMPLER_BINDING_COUNT)) ++
    map (fun b => (nth 2 (handles e) VK_NULL_HANDLE, Z.of_nat b))
        (filter (activeInputAttachment (mDescriptorRequirements s))
                (seq 0 INPUT_ATTACHMENT_COUNT)) /\
  (forall slot, ~ In slot (map target ws) ->
     mapFind pairEqb slot (deviceDescriptors s') = mapFind pairEqb slot (deviceDescriptors s)).
Proof.
  intros Hmiss Hrun ws.
  assert (Hdev : deviceDescriptors s' = applyWrites ws (deviceDescriptors s)).
  { subst ws.
    destruct s as [t pl prl ds dr cnt ps ac p ep eb dw req bd pbr dd dc]; cbn in Hmiss |- *.
    unfold_cache. crunch.
    all: try congruence.
    all: emplaced_entry; reflexivity. }
  split; [exact Hdev|]. split; [apply descriptorWrites_targets|].
  intros slot Hnot. rewrite Hdev. apply applyWrites_untouched. exact Hnot.
Qed.

(** ** C5: the uniform-buffer writes *)

Lemma skipn_length_app {A} (l m : list A) : skipn (length l) (l ++ m) = m.
Proof. induction l as [|x l IH]; [reflexivity|]. exact IH. Qed.

Lemma uniformBufferWrite_spec req dummy set binding :
  uniformBufferWrite req dummy set binding = specUniformWrite req dummy set binding.
Proof.
  unfold uniformBufferWrite, specUniformWrite.
  destruct (nth binding (uniformBuffers req) VK_NULL_HANDLE =? VK_NULL_HANDLE); reflexivity.
Qed.

Lemma firstn_length_app {A} (l m : list A) : firstn (length l) (l ++ m) = l.
Proof. induction l as [|x l IH]; [reflexivity|]. cbn. f_equal. exact IH. Qed.

(** The batch starts with the uniform writes, one per slot; the writes after
    them are sampler and input-attachment writes. *)
Lemma descriptorWrites_uniform_prefix req dummy hs :
  firstn UBUFFER_BINDING_COUNT (descriptorWrites req dummy hs) =
    map (specUniformWrite req dummy (nth 0 hs VK_NULL_HANDLE)) (seq 0 UBUFFER_BINDING_COUNT) /\
  Forall (fun w => descriptorType w <> VK_DESCRIPTOR_TYPE_UNIFORM_BUFFER)
         (skipn UBUFFER_BINDING_COUNT (descriptorWrites req dummy hs)).
Proof.
  unfold descriptorWrites.
  set (u := map (uniformBufferWrite req dummy (nth 0 hs VK_NULL_HANDLE))
                (seq 0 UBUFFER_BINDING_COUNT)).
  assert (Hl : length u = UBUFFER_BINDING_COUNT)
    by (subst u; rewrite length_map, length_seq; reflexivity).
  split.
  - rewrite <- Hl at 1. rewrite firstn_length_app. subst u.
    apply map_ext. intro b. apply uniformBufferWrite_spec.
  - rewrite <- Hl at 1. rewrite skipn_length_app.
    apply Forall_app; split; apply Forall_forall; intros w Hw;
      apply in_flat_map in Hw as (b & _ & Hb);
      unfold samplerWrite, inputAttachmentWrite in Hb;
      (destruct (negb _); cbn in Hb; [destruct Hb as [<-|[]]; discriminate | contradiction]).
Qed.

(** Claim C5, refuted: the write emitted for the inactive uniform slot 1 is
    not the dummy write itself, it is the dummy write aimed at binding 1 of the
    new uniform set 21. *)
Lemma inactive_uniform_write_is_retargeted :
  match createDescriptorSets repOk cacheEmpty with
  | Some (Some _, s') =>
      match deviceCalls s' with
      | [vkAllocateDescriptorSets _ _; vkUpdateDescriptorSets ws] =>
          nth 1 (uniformBuffers keyA) 0 = 0 /\
          nth_error ws 1 = Some (setDst exampleDummyWrite 21 1) /\
          nth_error ws 1 <> Some (mDummyBufferWriteInfo cacheEmpty)
      | _ => False
      end
  | _ => False
  end.
Proof. vm_compute. split; [reflexivity | split; [reflexivity | discriminate]]. Qed.

(** Claim C5, as the code does it.  On a miss, [createDescriptorSets] issues a
    single [vkUpdateDescriptorSets]; its first [UBUFFER_BINDING_COUNT] writes
    are one per uniform slot, in slot order, each as [specUniformWrite]
    describes it (active slot: buffer, offset, size with [WHOLE_SIZE] mapped to
    [VK_WHOLE_SIZE]; inactive slot: the dummy write with [dstSet] and
    [dstBinding] set to the slot of the new uniform set); the writes after
    them are sampler and input-attachment writes. *)
Theorem createDescriptorSets_uniform_writes (rep : VkReplies) (s s' : Cache) e :
  mapFind DescEqual (mDescriptorRequirements s) (mDescriptorSets s) = None ->
  createDescriptorSets rep s = Some (Some e, s') ->
  exists ws,
    filter isUpdate (newCalls s s') = [vkUpdateDescriptorSets ws] /\
    firstn UBUFFER_BINDING_COUNT ws =
      map (specUniformWrite (mDescriptorRequirements s) (mDummyBufferWriteInfo s)
             (nth 0 (handles e) VK_NULL_HANDLE))
          (seq 0 UBUFFER_BINDING_COUNT) /\
    Forall (fun w => descriptorType w <> VK_DESCRIPTOR_TYPE_UNIFORM_BUFFER)
           (skipn UBUFFER_BINDING_COUNT ws).
Proof.
  intros Hmiss Hrun.
  destruct s as [t pl prl ds dr cnt ps ac p ep eb dw req bd pbr dd dc]; cbn in Hmiss |- *.
  unfold newCalls. unfold_cache. crunch.
  all: try congruence.
  all: try emplaced_entry.
  all: eexists; split; [rewrite <- ?app_assoc, skipn_length_app; reflexivity|].
  all: cbn [handles]; apply descriptorWrites_uniform_prefix.
Qed.

(** ** C6: taking a bundle from the arenas *)

(** [popArenas] takes the last set of every arena. *)
Lemma popArenas_spec (arenas : list (list Z)) hs arenas' :
  popArenas arenas = Some (hs, arenas') ->
  length hs = length arenas /\ length arenas' = length arenas /\
  forall i, (i < length arenas)%nat ->
    nth i arenas [] = nth i arenas' [] ++ [nth i hs VK_NULL_HANDLE].
Proof.
  revert hs arenas'.
  induction arenas as [|a rest IH]; intros hs arenas' Hpop; cbn in Hpop.
  - injection Hpop as <- <-. repeat split; intros i Hi; cbn in Hi; lia.
  - destruct (rev a) as [|x r] eqn:Ha; [discriminate|].
    destruct (popArenas rest) as [[hs0 rest0]|] eqn:Hrest; [|discriminate].
    injection Hpop as <- <-.
    destruct (IH hs0 rest0 eq_refl) as (H1 & H2 & H3).
    cbn. repeat split; [lia | lia |].
    intros [|i] Hi; cbn.
    + rewrite <- (rev_involutive a), Ha. reflexivity.
    + apply H3. lia.
Qed.

Lemma is_nil_false {A} (l : list A) : l <> [] -> is_nil l = false.
Proof. destruct l; [congruence | reflexivity]. Qed.

(** Claim C6.  On a miss, when the layout's first arena is non-empty,
    [createDescriptorSets] succeeds with handles made of the last set of each
    arena, which it pops (each arena loses exactly its last element),
    decrements [mDescriptorArenasCount] by one (uint32_t arithmetic), and
    neither allocates from the pool nor grows it. *)
Theorem createDescriptorSets_reuse (rep : VkReplies) (s s' : Cache) l r :
  mapFind DescEqual (mDescriptorRequirements s) (mDescriptorSets s) = None ->
  mapFind Z.eqb (mPipelineRequirementsLayout s) (mPipelineLayouts s) = Some l ->
  nth 0 (descriptorSetArenas l) [] <> [] ->
  createDescriptorSets rep s = Some (r, s') ->
  exists e l',
    r = Some e /\
    mapFind Z.eqb (mPipelineRequirementsLayout s) (mPipelineLayouts s') = Some l' /\
    length (handles e) = length (descriptorSetArenas l) /\
    length (descriptorSetArenas l') = length (descriptorSetArenas l) /\
    (forall i, (i < length (descriptorSetArenas l))%nat ->
       nth i (descriptorSetArenas l) [] =
       nth i (descriptorSetArenas l') [] ++ [nth i (handles e) VK_NULL_HANDLE]) /\
    mDescriptorArenasCount s' = wrap32 (mDescriptorArenasCount s - 1) /\
    existsb isAllocation (newCalls s s') = false /\
    growthEvents (newCalls s s') = 0%nat.
Proof.
  intros Hmiss Hl Hne Hrun.
  apply is_nil_false in Hne.
  destruct s as [t pl prl ds dr cnt ps ac p ep eb dw req bd pbr dd dc]; cbn in Hmiss, Hl |- *.
  unfold newCalls. unfold_cache. simpl_cache. rewrite Hl, Hne in Hrun. crunch.
  all: try congruence.
  all: try emplaced_entry.
  match goal with
  | H : popArenas _ = Some (_, _) |- _ => destruct (popArenas_spec _ _ _ H) as (Hl1 & Hl2 & Hl3)
  end.
  eexists _, _. split; [reflexivity|].
  rewrite mapFind_update_same, Hl. cbn [option_map handles descriptorSetArenas withArenas].
  split; [reflexivity|].
  rewrite skipn_length_app.
  repeat split; assumption.
Qed.

(** ** C7: acquiring the pipeline-bound resources *)

(** Claim C7 (as the code behaves).  A successful [bindDescriptors] that takes
    the fast path leaves the per-id resource map untouched; any other
    successful call finds the entry [e] now stored under the requirements key,
    creates an empty tracker for [e.id] when there is none, and then runs
    [acquireAll] of the pipeline-bound resources on that tracker. *)
Theorem bindDescriptors_resources (rep : VkReplies) (s s' : Cache) :
  bindDescriptors rep s = Some (true, s') ->
  if fastPath s then mDescriptorResources s' = mDescriptorResources s
  else exists e,
    mapFind DescEqual (mDescriptorRequirements s) (mDescriptorSets s') = Some e /\
    mDescriptorResources s' =
      mapUpdate Z.eqb (id e) (fun mgr => acquireAll mgr (mPipelineBoundResources s))
        (match mapFind Z.eqb (id e) (mDescriptorResources s) with
         | Some _ => mDescriptorResources s
         | None => (id e, []) :: mDescriptorResources s
         end).
Proof.
  intros Hrun.
  destruct s as [t pl prl ds dr cnt ps ac p ep eb dw req bd pbr dd dc].
  unfold fastPath. unfold_cache. crunch.
  all: try reflexivity.
  all: eexists; split;
    [ rewrite ?mapFind_update_same, ?DescEqual_refl; cbn -[DescEqual];
      use_eqns; cbn -[DescEqual]; rewrite ?DescEqual_refl; reflexivity
    | cbn [id withLastUsed]; use_eqns; reflexivity ].
Qed.

(** Claim C7, counterexample.  In [cacheBound] the requirements equal the
    bound key and the map holds their entry, so [bindDescriptors] succeeds on
    the fast path; the pipeline-bound resource [500] is not acquired into the
    entry's tracker, which stays empty. *)
Lemma fast_path_skips_acquire :
  match bindDescriptors repOk cacheBound with
  | Some (true, s') =>
      mPipelineBoundResources cacheBound = [500] /\
      mapFind Z.eqb 0 (mDescriptorResources s') = Some []
  | _ => False
  end.
Proof. vm_compute. split; reflexivity. Qed.

(** ** C8: key equality and hashing *)

(** Claim C8.  Byte-equal keys hash equally, for [DescriptorKey] under
    [DescEqual]/[DescHashFn] and for [PipelineKey] under
    [PipelineEqual]/[PipelineHashFn]; and [DescEqual] holds exactly when the
    full [sizeof(DescriptorKey)]-byte images agree, padding bytes included. *)
Theorem key_equality_hash_consistent :
  (forall k1 k2 : DescriptorKey, DescEqual k1 k2 = true -> DescHashFn k1 = DescHashFn k2) /\
  (forall k1 k2 : Pipeline.PipelineKey,
     Pipeline.PipelineEqual k1 k2 = true -> Pipeline.PipelineHashFn k1 = Pipeline.PipelineHashFn k2) /\
  (forall k1 k2 : DescriptorKey,
     DescEqual k1 k2 = true <->
     memoryImage sizeofDescriptorKey (descriptorKeyBytes k1) =
     memoryImage sizeofDescriptorKey (descriptorKeyBytes k2)).
Proof.
  split; [|split].
  - intros k1 k2 H. unfold DescEqual in H. apply memcmpEqual_spec in H.
    unfold DescHashFn, MurmurHashFn. cbv zeta. rewrite H. reflexivity.
  - intros k1 k2 H. unfold Pipeline.PipelineEqual in H. apply memcmpEqual_spec in H.
    unfold Pipeline.PipelineHashFn, MurmurHashFn. cbv zeta. rewrite H. reflexivity.
  - intros k1 k2. apply memcmpEqual_spec.
Qed.

(** ** C9: the arenas of a layout stay balanced *)

Lemma layoutsBalanced_cons k l (rest : list (Z * PipelineLayoutCacheEntry)) :
  layoutsBalanced ((k, l) :: rest) =
  arenasBalanced (descriptorSetArenas l) && layoutsBalanced rest.
Proof. reflexivity. Qed.

Lemma is_nil_true {A} (l : list A) : is_nil l = true -> l = [].
Proof. destruct l; [reflexivity | discriminate]. Qed.

Lemma arenasBalanced_spec (a : list (list Z)) :
  arenasBalanced a = true <->
  length a = DESCRIPTOR_TYPE_COUNT /\
  forall i, (i < length a)%nat -> length (nth i a []) = length (nth 0 a []).
Proof.
  unfold arenasBalanced. rewrite andb_true_iff, Nat.eqb_eq, forallb_forall.
  split; intros [Hl H]; split; try assumption.
  - intros i Hi. apply Nat.eqb_eq, H, nth_In, Hi.
  - intros x Hx. apply In_nth with (d := []) in Hx as (i & Hi & <-).
    apply Nat.eqb_eq, H, Hi.
Qed.

(** In balanced arenas the first one is empty exactly when all are. *)
Lemma arenasBalanced_first_empty (a : list (list Z)) :
  arenasBalanced a = true ->
  (nth 0 a [] = [] <-> Forall (fun x => x = []) a).
Proof.
  intros [_ H]%arenasBalanced_spec. split.
  - intros H0. apply Forall_forall. intros x Hx.
    apply In_nth with (d := []) in Hx as (i & Hi & <-).
    apply length_zero_iff_nil. rewrite (H i Hi), H0. reflexivity.
  - intros HF. destruct a as [|x a]; [reflexivity|]. cbn. now inversion HF.
Qed.

Lemma layoutsBalanced_find (layouts : list (Z * PipelineLayoutCacheEntry)) k l :
  layoutsBalanced layouts = true ->
  mapFind Z.eqb k layouts = Some l -> arenasBalanced (descriptorSetArenas l) = true.
Proof.
  unfold layoutsBalanced.
  induction layouts as [|[k' l'] rest IH]; cbn; [discriminate|].
  rewrite andb_true_iff. intros [H1 H2].
  destruct (k' =? k); [intros [= <-]; exact H1 | exact (IH H2)].
Qed.

Lemma layoutsBalanced_update (layouts : list (Z * PipelineLayoutCacheEntry)) k a :
  layoutsBalanced layouts = true -> arenasBalanced a = true ->
  layoutsBalanced (mapUpdate Z.eqb k (withArenas a) layouts) = true.
Proof.
  unfold layoutsBalanced.
  intros H Ha. induction layouts as [|[k' l'] rest IH]; cbn in *; [reflexivity|].
  apply andb_true_iff in H as [H1 H2].
  destruct (k' =? k); cbn; rewrite ?Ha, ?H1, ?H2, ?IH; auto.
Qed.

Lemma arenasBalanced_cleared (a : list (list Z)) :
  arenasBalanced a = true -> arenasBalanced (map (fun _ => []) a) = true.
Proof.
  intros [Hl _]%arenasBalanced_spec. apply arenasBalanced_spec.
  rewrite length_map. split; [exact Hl|].
  assert (Hnil : forall i (b : list (list Z)), nth i (map (fun _ => []) b) [] = @nil Z).
  { induction i; intros [|x b]; cbn; auto. }
  intros i _. rewrite !Hnil. reflexivity.
Qed.

Lemma layoutsBalanced_cleared (layouts : list (Z * PipelineLayoutCacheEntry)) :
  layoutsBalanced layouts = true ->
  layoutsBalanced
    (map (fun kl => (fst kl, withArenas (map (fun _ => []) (descriptorSetArenas (snd kl))) (snd kl)))
         layouts) = true.
Proof.
  unfold layoutsBalanced.
  induction layouts as [|[k l] rest IH]; cbn; [reflexivity|].
  rewrite !andb_true_iff. intros [H1 H2]. split; [apply arenasBalanced_cleared, H1 | apply IH, H2].
Qed.

Lemma arenasBalanced_pop (a : list (list Z)) hs a' :
  arenasBalanced a = true -> popArenas a = Some (hs, a') -> arenasBalanced a' = true.
Proof.
  intros [Hl H]%arenasBalanced_spec Hpop.
  destruct (popArenas_spec _ _ _ Hpop) as (_ & Hl' & Hn).
  apply arenasBalanced_spec. rewrite Hl'. split; [exact Hl|].
  assert (Hlen : forall i, (i < length a)%nat ->
            length (nth i a' []) = (length (nth i a []) - 1)%nat).
  { intros i Hi. rewrite (Hn i Hi), length_app. cbn. lia. }
  intros i Hi. rewrite (Hlen i Hi), (H i Hi), (Hlen 0%nat) by lia. reflexivity.
Qed.

Lemma mapFind_cleared (layouts : list (Z * PipelineLayoutCacheEntry)) k :
  mapFind Z.eqb k
    (map (fun kl => (fst kl, withArenas (map (fun _ => []) (descriptorSetArenas (snd kl))) (snd kl)))
         layouts) =
  option_map (fun l => withArenas (map (fun _ => []) (descriptorSetArenas l)) l)
    (mapFind Z.eqb k layouts).
Proof.
  induction layouts as [|[k' l] rest IH]; cbn; [reflexivity|].
  destruct (k' =? k); [reflexivity | exact IH].
Qed.

Lemma cleared_empty_arenas (a : list (list Z)) :
  Forall (fun x => x = []) a -> map (fun _ => []) a = a.
Proof. induction 1 as [|x a Hx _ IH]; cbn; [reflexivity|]. now rewrite Hx, IH. Qed.

(** Claim C9.  If every layout entry has balanced arenas
    ([DESCRIPTOR_TYPE_COUNT] arenas of equal length), so has every entry after
    [createDescriptorSets].  The arenas of the requested layout are either
    left as they were (first arena empty: fresh allocation) or lose exactly
    their last set each (reuse); and after the call, for every layout, the
    first arena is empty exactly when all of them are. *)
Theorem createDescriptorSets_arenas_balanced (rep : VkReplies) (s s' : Cache) r :
  layoutsBalanced (mPipelineLayouts s) = true ->
  createDescriptorSets rep s = Some (r, s') ->
  layoutsBalanced (mPipelineLayouts s') = true /\
  (forall l, mapFind Z.eqb (mPipelineRequirementsLayout s) (mPipelineLayouts s) = Some l ->
     exists l', mapFind Z.eqb (mPipelineRequirementsLayout s) (mPipelineLayouts s') = Some l' /\
       ((nth 0 (descriptorSetArenas l) [] = [] /\
         descriptorSetArenas l' = descriptorSetArenas l) \/
        (nth 0 (descriptorSetArenas l) [] <> [] /\
         exists hs, forall i, (i < DESCRIPTOR_TYPE_COUNT)%nat ->
           nth i (descriptorSetArenas l) [] =
           nth i (descriptorSetArenas l') [] ++ [nth i hs VK_NULL_HANDLE]))) /\
  (forall k l, mapFind Z.eqb k (mPipelineLayouts s') = Some l ->
     nth 0 (descriptorSetArenas l) [] = [] <-> Forall (fun x => x = []) (descriptorSetArenas l)).
Proof.
  intros Hbal Hrun.
  destruct s as [t pl prl ds dr cnt ps ac p ep eb dw req bd pbr dd dc]; cbn in Hbal |- *.
  unfold_cache. crunch.
  all: match goal with
       | |- layoutsBalanced ?x = true /\ _ => assert (HB : layoutsBalanced x = true)
       end.
  all: try solve
         [ assumption
         | apply layoutsBalanced_cleared; assumption
         | apply layoutsBalanced_update; [assumption|];
           eapply arenasBalanced_pop; [eapply layoutsBalanced_find; eassumption | eassumption]
         | apply layoutsBalanced_cleared; rewrite layoutsBalanced_cons; cbn; assumption
         | rewrite layoutsBalanced_cons; cbn; assumption ].
  all: split; [exact HB|].
  all: split;
    [| intros k0 l0 Hk; apply arenasBalanced_first_empty;
       exact (layoutsBalanced_find _ _ _ HB Hk)].
  all: intros l0 Hl; try discriminate Hl; injection Hl as <-.
  all: match goal with
       | H : @mapFind Z PipelineLayoutCacheEntry _ _ _ = Some ?p |- _ =>
           pose proof (layoutsBalanced_find _ _ _ Hbal H) as Hp;
           rewrite ?mapFind_cleared, ?mapFind_update_same, H
       end.
  all: cbn [option_map].
  all: eexists; split; [reflexivity|]; cbn [descriptorSetArenas withArenas].
  all: match goal with
       | H : is_nil _ = true |- _ =>
           apply is_nil_true in H; left; split; [exact H|]
       | H : is_nil _ = false |- _ =>
           right; split; [intros H0; rewrite H0 in H; discriminate H|]
       end.
  - apply cleared_empty_arenas, arenasBalanced_first_empty; assumption.
  - reflexivity.
  - match goal with
    | H : popArenas _ = Some (?hs, _) |- _ =>
        destruct (popArenas_spec _ _ _ H) as (_ & _ & Hn); exists hs
    end.
    apply arenasBalanced_spec in Hp as [Hlen _].
    intros i Hi. apply Hn. rewrite Hlen. exact Hi.
  - apply cleared_empty_arenas, arenasBalanced_first_empty; assumption.
  - reflexivity.
Qed.

(** ** C10: entry ids *)

Lemma ids_lastUsed (k : DescriptorKey) t (m : list (DescriptorKey * DescriptorCacheEntry)) :
  map id (map snd (mapUpdate DescEqual k (withLastUsed t) m)) = map id (map snd m).
Proof.
  induction m as [|[k' v] m IH]; cbn; [reflexivity|].
  destruct (DescEqual k' k); cbn; rewrite ?IH; reflexivity.
Qed.

Lemma mapEmplace_new {K V} (eqb : K -> K -> bool) (k : K) (v : V) m :
  mapFind eqb k m = None -> mapEmplace eqb k v m = (k, v) :: m.
Proof. intros H. unfold mapEmplace. rewrite H. reflexivity. Qed.

Ltac perm_ids :=
  rewrite ?map_app; cbn [map app id withLastUsed];
  first [ apply Permutation_refl | apply Permutation_app_comm
        | apply perm_skip; first [apply Permutation_refl | apply Permutation_app_comm] ].

Lemma bindDescriptors_ids (rep : VkReplies) (s s' : Cache) b :
  bindDescriptors rep s = Some (b, s') ->
  ((mDescriptorCacheEntryCount s' = mDescriptorCacheEntryCount s /\
    Permutation (entryIds s') (entryIds s)) \/
   (mDescriptorCacheEntryCount s' = wrap32 (mDescriptorCacheEntryCount s + 1) /\
    (Permutation (entryIds s') (entryIds s) \/
     Permutation (entryIds s') (mDescriptorCacheEntryCount s :: entryIds s)))) /\
  (map fst (mDescriptorResources s') = map fst (mDescriptorResources s) \/
   exists k, mapFind Z.eqb k (mDescriptorResources s) = None /\
     map fst (mDescriptorResources s') = k :: map fst (mDescriptorResources s)).
Proof.
  intros Hrun.
  destruct s as [t pl prl ds dr cnt ps ac p ep eb dw req bd pbr dd dc].
  unfold entryIds. unfold_cache. crunch.
  all: rewrite ?map_app, ?ids_lastUsed.
  all: try (rewrite mapEmplace_new by eassumption; cbn [mapUpdate]).
  all: rewrite ?DescEqual_refl, ?Z.eqb_refl, ?mapUpdate_keys; cbn [map fst snd].
  all: try (split;
    [ first [ left; split; [reflexivity | perm_ids]
            | right; split; [reflexivity | first [left; perm_ids | right; perm_ids]] ]
    | first [ left; reflexivity | right; eexists; split; [eassumption | reflexivity] ] ]; fail).
Qed.

Lemma wrap32_small (x : Z) : 0 <= x < 2 ^ 32 -> wrap32 x = x.
Proof. intros H. unfold wrap32. apply Z.mod_small. exact H. Qed.

Lemma mapFind_None_notin {V} (k : Z) (m : list (Z * V)) :
  mapFind Z.eqb k m = None -> ~ In k (map fst m).
Proof.
  induction m as [|[k' v] m IH]; cbn; [tauto|].
  destruct (Z.eqb_spec k' k); [discriminate|]. intros H [-> | Hin]; [congruence | exact (IH H Hin)].
Qed.

Lemma entryIds_below_notin (s : Cache) :
  idsFresh s -> ~ In (mDescriptorCacheEntryCount s) (entryIds s).
Proof.
  intros (_ & _ & Hlt & _) Hin. rewrite Forall_forall in Hlt.
  specialize (Hlt _ Hin). lia.
Qed.

(** Claim C10.  From a state whose entry ids are fresh ([idsFresh]) and whose
    counter has not reached [2^32 - 1]: a [createDescriptorSets] call on a miss
    increments [mDescriptorCacheEntryCount] by one whatever its outcome (also
    when the allocation fails) and gives the entry it returns the old counter
    value, an id no entry created before carries; and every
    [bindDescriptors] call keeps the ids fresh, the per-id resource map
    included. *)
Theorem entry_ids_fresh (rep : VkReplies) (s : Cache) :
  idsFresh s ->
  mDescriptorCacheEntryCount s + 1 < 2 ^ 32 ->
  (forall r s',
     mapFind DescEqual (mDescriptorRequirements s) (mDescriptorSets s) = None ->
     createDescriptorSets rep s = Some (r, s') ->
     mDescriptorCacheEntryCount s' = mDescriptorCacheEntryCount s + 1 /\
     forall e, r = Some e ->
       id e = mDescriptorCacheEntryCount s /\ ~ In (id e) (entryIds s)) /\
  (forall b s', bindDescriptors rep s = Some (b, s') -> idsFresh s').
Proof.
  intros Hfresh Hwrap.
  pose proof (entryIds_below_notin s Hfresh) as Hnotin.
  pose proof Hfresh as (Hpos & Hnodup & Hlt & Hres).
  assert (Hw : wrap32 (mDescriptorCacheEntryCount s + 1) = mDescriptorCacheEntryCount s + 1)
    by (apply wrap32_small; lia).
  split.
  - intros r s' Hmiss Hrun.
    destruct s as [t pl prl ds dr cnt ps ac p ep eb dw req bd pbr dd dc];
      cbn in Hmiss, Hw, Hnotin |- *.
    unfold createDescriptorSets, growDescriptorPool, getOrCreatePipelineLayout,
      bind, ret, get, modify, emit, undefined in Hrun.
    crunch.
    all: try congruence.
    all: split; [exact Hw|].
    all: intros e He; try discriminate He; injection He as <-.
    all: try emplaced_entry.
    all: split; [reflexivity | exact Hnotin].
  - intros b s' Hrun.
    destruct (bindDescriptors_ids rep s s' b Hrun) as [Hids Hkeys].
    assert (Hcnt : mDescriptorCacheEntryCount s' = mDescriptorCacheEntryCount s /\
                   Permutation (entryIds s') (entryIds s) \/
                   mDescriptorCacheEntryCount s' = mDescriptorCacheEntryCount s + 1 /\
                   Permutation (entryIds s') (mDescriptorCacheEntryCount s :: entryIds s) \/
                   mDescriptorCacheEntryCount s' = mDescriptorCacheEntryCount s + 1 /\
                   Permutation (entryIds s') (entryIds s))
      by (rewrite Hw in Hids; tauto).
    unfold idsFresh.
    assert (Hres' : NoDup (map fst (mDescriptorResources s'))).
    { destruct Hkeys as [-> | (k & Hk & ->)]; [exact Hres|].
      constructor; [apply mapFind_None_notin, Hk | exact Hres]. }
    destruct Hcnt as [(-> & Hp) | [(-> & Hp) | (-> & Hp)]];
      repeat split; try assumption; try lia.
    + apply (Permutation_NoDup (Permutation_sym Hp) Hnodup).
    + rewrite Forall_forall in Hlt |- *. intros x Hx.
      apply Hlt, (Permutation_in _ Hp), Hx.
    + apply (Permutation_NoDup (Permutation_sym Hp)). constructor; assumption.
    + rewrite Forall_forall in Hlt |- *. intros x Hx.
      apply (Permutation_in _ Hp) in Hx as [<- | Hx]; [lia|].
      specialize (Hlt _ Hx). lia.
    + apply (Permutation_NoDup (Permutation_sym Hp) Hnodup).
    + rewrite Forall_forall in Hlt |- *. intros x Hx.
      apply (Permutation_in _ Hp) in Hx. specialize (Hlt _ Hx). lia.
Qed.

(** ** Instances of the theorems on concrete caches *)

(** [cacheBound]: requirements equal to the bound key, map non-empty. *)
Lemma bindDescriptors_fast_path_witness :
  DescEqual (mBoundDescriptor cacheBound) (mDescriptorRequirements cacheBound) = true /\
  bindDescriptors repOk cacheBound =
    Some (true, setDescriptorSets
                  (mapUpdate DescEqual keyA (withLastUsed 5) (mDescriptorSets cacheBound))
                  cacheBound).
Proof.
  assert (H : DescEqual (mBoundDescriptor cacheBound) (mDescriptorRequirements cacheBound) = true)
    by (vm_compute; reflexivity).
  split; [exact H|].
  destruct (bindDescriptors_fast_path repOk cacheBound H) as [Hne _].
  rewrite Hne by discriminate. vm_compute. reflexivity.
Defined.

(** [cacheFull] with a successful allocation: the pool grows once. *)
Lemma createDescriptorSets_growth_witness :
  match createDescriptorSets repOk cacheFull with
  | Some (r, s') =>
      exists calls, deviceCalls s' = deviceCalls cacheFull ++ calls /\
        growthEvents calls =
          (if is_nil (nth 0 (currentArenas cacheFull) []) && poolOverflow cacheFull
           then 1 else 0)%nat
  | None => False
  end.
Proof.
  destruct (createDescriptorSets repOk cacheFull) as [[r s']|] eqn:Hrun.
  - exact (createDescriptorSets_growth repOk cacheFull s' r Hrun).
  - vm_compute in Hrun. discriminate Hrun.
Defined.

(** [cacheFull] with a failing allocation: the pool grows, then the
    allocation fails. *)
Lemma bindDescriptors_failure_witness :
  replyAllocate repFail = None /\
  is_nil (nth 0 (currentArenas cacheFull) []) = true /\
  fastPath cacheFull = false /\
  mapFind DescEqual (mDescriptorRequirements cacheFull) (mDescriptorSets cacheFull) = None /\
  exists s1, createDescriptorSets repFail cacheFull = Some (None, s1) /\
    bindDescriptors repFail cacheFull = Some (false, s1) /\
    mBoundDescriptor s1 = mBoundDescriptor cacheFull /\
    mDescriptorResources s1 = mDescriptorResources cacheFull /\
    mapFind DescEqual (mDescriptorRequirements cacheFull) (mDescriptorSets s1) = None /\
    ((poolOverflow cacheFull = false /\ mDescriptorSets s1 = mDescriptorSets cacheFull /\
      mExtinctDescriptorBundles s1 = mExtinctDescriptorBundles cacheFull) \/
     (poolOverflow cacheFull = true /\ mDescriptorSets s1 = [] /\
      mExtinctDescriptorBundles s1 =
        mExtinctDescriptorBundles cacheFull ++ map snd (mDescriptorSets cacheFull))).
Proof.
  assert (H1 : replyAllocate repFail = None) by reflexivity.
  assert (H2 : is_nil (nth 0 (currentArenas cacheFull) []) = true) by (vm_compute; reflexivity).
  assert (H3 : fastPath cacheFull = false) by (vm_compute; reflexivity).
  assert (H4 : mapFind DescEqual (mDescriptorRequirements cacheFull) (mDescriptorSets cacheFull)
                 = None) by (vm_compute; reflexivity).
  destruct (bindDescriptors_failure repFail cacheFull) as [Hfwd Hbwd].
  destruct (Hfwd H1 H2) as (s1 & Hc & _ & Hb).
  pose proof (Hb H3 H4) as Hrun.
  destruct (Hbwd s1 Hrun) as (_ & Hframe).
  repeat (split; [assumption|]).
  exists s1. split; [exact Hc|]. split; [exact Hrun|]. exact Hframe.
Defined.

(** [cacheReclaimed]: a miss served from the arenas. *)
Lemma createDescriptorSets_rewritten_slots_witness :
  match createDescriptorSets repOk cacheReclaimed with
  | Some (Some e, s') =>
      let ws := descriptorWrites keyA exampleDummyWrite (handles e) in
      deviceDescriptors s' = applyWrites ws (deviceDescriptors cacheReclaimed) /\
      map target ws =
        map (fun b => (nth 0 (handles e) VK_NULL_HANDLE, Z.of_nat b)) (seq 0 UBUFFER_BINDING_COUNT) ++
        map (fun b => (nth 1 (handles e) VK_NULL_HANDLE, Z.of_nat b))
            (filter (activeSampler keyA) (seq 0 SAMPLER_BINDING_COUNT)) ++
        map (fun b => (nth 2 (handles e) VK_NULL_HANDLE, Z.of_nat b))
            (filter (activeInputAttachment keyA) (seq 0 INPUT_ATTACHMENT_COUNT)) /\
      (forall slot, ~ In slot (map target ws) ->
         mapFind pairEqb slot (deviceDescriptors s') =
         mapFind pairEqb slot (deviceDescriptors cacheReclaimed))
  | _ => False
  end.
Proof.
  destruct (createDescriptorSets repOk cacheReclaimed) as [[[e|] s']|] eqn:Hrun;
    try (vm_compute in Hrun; discriminate Hrun).
  apply (createDescriptorSets_rewritten_slots repOk cacheReclaimed s' e); [|exact Hrun].
  vm_compute. reflexivity.
Defined.

(** [cacheEmpty]: a miss served by a fresh allocation. *)
Lemma createDescriptorSets_uniform_writes_witness :
  match createDescriptorSets repOk cacheEmpty with
  | Some (Some e, s') =>
      exists ws,
        filter isUpdate (newCalls cacheEmpty s') = [vkUpdateDescriptorSets ws] /\
        firstn UBUFFER_BINDING_COUNT ws =
          map (specUniformWrite keyA exampleDummyWrite (nth 0 (handles e) VK_NULL_HANDLE))
              (seq 0 UBUFFER_BINDING_COUNT) /\
        Forall (fun w => descriptorType w <> VK_DESCRIPTOR_TYPE_UNIFORM_BUFFER)
               (skipn UBUFFER_BINDING_COUNT ws)
  | _ => False
  end.
Proof.
  destruct (createDescriptorSets repOk cacheEmpty) as [[[e|] s']|] eqn:Hrun;
    try (vm_compute in Hrun; discriminate Hrun).
  apply (createDescriptorSets_uniform_writes repOk cacheEmpty s' e); [|exact Hrun].
  vm_compute. reflexivity.
Defined.

(** [cacheReclaimed]: the first arena of layout 7 holds a set. *)
Lemma createDescriptorSets_reuse_witness :
  match createDescriptorSets repOk cacheReclaimed with
  | Some (r, s') =>
      exists e l',
        r = Some e /\
        mapFind Z.eqb 7 (mPipelineLayouts s') = Some l' /\
        length (handles e) = 3%nat /\
        length (descriptorSetArenas l') = 3%nat /\
        (forall i, (i < 3)%nat ->
           nth i [[31]; [32]; [33]] [] =
           nth i (descriptorSetArenas l') [] ++ [nth i (handles e) VK_NULL_HANDLE]) /\
        mDescriptorArenasCount s' = wrap32 (1 - 1) /\
        existsb isAllocation (newCalls cacheReclaimed s') = false /\
        growthEvents (newCalls cacheReclaimed s') = 0%nat
  | None => False
  end.
Proof.
  destruct (createDescriptorSets repOk cacheReclaimed) as [[r s']|] eqn:Hrun;
    [| vm_compute in Hrun; discriminate Hrun].
  apply (createDescriptorSets_reuse repOk cacheReclaimed s' (exampleLayout [[31]; [32]; [33]]) r).
  - vm_compute. reflexivity.
  - vm_compute. reflexivity.
  - vm_compute. discriminate.
  - exact Hrun.
Defined.

(** [cacheEmpty]: a first bind, which creates the entry and its tracker. *)
Lemma bindDescriptors_resources_witness :
  match bindDescriptors repOk cacheEmpty with
  | Some (true, s') =>
      if fastPath cacheEmpty then mDescriptorResources s' = mDescriptorResources cacheEmpty
      else exists e,
        mapFind DescEqual keyA (mDescriptorSets s') = Some e /\
        mDescriptorResources s' =
          mapUpdate Z.eqb (id e) (fun mgr => acquireAll mgr [500])
            (match mapFind Z.eqb (id e) (mDescriptorResources cacheEmpty) with
             | Some _ => mDescriptorResources cacheEmpty
             | None => (id e, []) :: mDescriptorResources cacheEmpty
             end)
  | _ => False
  end.
Proof.
  destruct (bindDescriptors repOk cacheEmpty) as [[[|] s']|] eqn:Hrun;
    try (vm_compute in Hrun; discriminate Hrun).
  exact (bindDescriptors_resources repOk cacheEmpty s' Hrun).
Defined.

(** [cacheReclaimed]: one layout with balanced arenas. *)
Lemma createDescriptorSets_arenas_balanced_witness :
  layoutsBalanced (mPipelineLayouts cacheReclaimed) = true /\
  match createDescriptorSets repOk cacheReclaimed with
  | Some (r, s') => layoutsBalanced (mPipelineLayouts s') = true
  | None => False
  end.
Proof.
  assert (Hbal : layoutsBalanced (mPipelineLayouts cacheReclaimed) = true)
    by (vm_compute; reflexivity).
  split; [exact Hbal|].
  destruct (createDescriptorSets repOk cacheReclaimed) as [[r s']|] eqn:Hrun;
    [| vm_compute in Hrun; discriminate Hrun].
  exact (proj1 (createDescriptorSets_arenas_balanced repOk cacheReclaimed s' r Hbal Hrun)).
Defined.

(** [cacheBound]: one entry with id 0 and its tracker, counter 1. *)
Lemma entry_ids_fresh_witness :
  idsFresh cacheBound /\
  mDescriptorCacheEntryCount cacheBound + 1 < 2 ^ 32 /\
  (forall b s', bindDescriptors repOk cacheBound = Some (b, s') -> idsFresh s').
Proof.
  assert (Hf : idsFresh cacheBound).
  { unfold idsFresh, entryIds. cbn.
    repeat split; repeat constructor; cbn; try lia; tauto. }
  assert (Hc : mDescriptorCacheEntryCount cacheBound + 1 < 2 ^ 32)
    by (vm_compute; reflexivity).
  split; [exact Hf|]. split; [exact Hc|].
  exact (proj2 (entry_ids_fresh repOk cacheBound Hf Hc)).
Defined.

(** * Further properties of the cache keys and of the cache *)

(** ** Byte images of the keys *)

Lemma le_bytes_length (n : nat) (z : Z) : length (le_bytes n z) = n.
Proof. revert z; induction n; intros z; cbn; [reflexivity | rewrite IHn; reflexivity]. Qed.

Lemma concat_map_length {A} (f : A -> list Z) (n : nat) (l : list A) :
  (forall x, length (f x) = n) -> length (concat (map f l)) = (n * length l)%nat.
Proof.
  intros Hf. induction l as [|x l IH]; cbn; [lia|].
  rewrite length_app, Hf, IH. lia.
Qed.

Lemma imageInfoBytes_length (d : DescriptorImageInfo) : length (imageInfoBytes d) = 24%nat.
Proof. unfold imageInfoBytes. rewrite !length_app, !le_bytes_length. reflexivity. Qed.

Ltac shaped_lengths H :=
  repeat rewrite andb_true_iff in H; repeat rewrite Nat.eqb_eq in H.

(** Extra.  The byte image of a [DescriptorKey] with arrays of the declared
    lengths has no implicit padding: [samplers] start at byte 80,
    [inputAttachments] at 1568, [uniformBufferOffsets] at 1592,
    [uniformBufferSizes] at 1632, and the whole key is 1672 bytes, the values
    of the [static_assert]s on [offsetof] and [sizeof]. *)
Theorem descriptorKey_layout (k : DescriptorKey) :
  descriptorKeyShaped k = true ->
  let ub := concat (map (le_bytes 8) (uniformBuffers k)) in
  let sm := concat (map imageInfoBytes (samplers k)) in
  let ia := concat (map imageInfoBytes (inputAttachments k)) in
  let off := concat (map (le_bytes 4) (uniformBufferOffsets k)) in
  let sz := concat (map (le_bytes 4) (uniformBufferSizes k)) in
  descriptorKeyBytes k = ub ++ sm ++ ia ++ off ++ sz /\
  length ub = 80%nat /\
  length (ub ++ sm) = 1568%nat /\
  length (ub ++ sm ++ ia) = 1592%nat /\
  length (ub ++ sm ++ ia ++ off) = 1632%nat /\
  length (descriptorKeyBytes k) = sizeofDescriptorKey.
Proof.
  intros H. unfold descriptorKeyShaped in H. shaped_lengths H.
  destruct H as ((((H1 & H2) & H3) & H4) & H5). cbv zeta.
  unfold descriptorKeyBytes.
  rewrite !length_app,
    !(concat_map_length _ 8 _ (fun z => le_bytes_length 8 z)),
    !(concat_map_length _ 24 _ imageInfoBytes_length),
    !(concat_map_length _ 4 _ (fun z => le_bytes_length 4 z)), H1, H2, H3, H4, H5.
  repeat split; reflexivity.
Qed.

Lemma rasterStateBytes_length (r : Pipeline.RasterState) :
  length (Pipeline.rasterStateBytes r) = 16%nat.
Proof. unfold Pipeline.rasterStateBytes. rewrite !length_app, !le_bytes_length. reflexivity. Qed.

(** Extra.  The byte image of a [PipelineKey] with arrays of the declared
    lengths matches the size:offset table of its declaration: [renderPass] at
    16, [topology] at 24, [subpassIndex] at 26, [vertexAttributes] at 28,
    [vertexBuffers] at 156, [rasterState] (16 bytes, its [static_assert]) at
    284, [padding] at 300, [layout] at 304, and 320 bytes in all. *)
Theorem pipelineKey_layout (k : Pipeline.PipelineKey) :
  Pipeline.pipelineKeyShaped k = true ->
  let sh := concat (map (le_bytes 8) (Pipeline.shaders k)) in
  let rp := le_bytes 8 (Pipeline.renderPass k) in
  let tp := le_bytes 2 (Pipeline.topology k) in
  let si := le_bytes 2 (Pipeline.subpassIndex k) in
  let va := concat (map Pipeline.attributeBytes (Pipeline.vertexAttributes k)) in
  let vb := concat (map Pipeline.bindingBytes (Pipeline.vertexBuffers k)) in
  let rs := Pipeline.rasterStateBytes (Pipeline.rasterState k) in
  let pd := le_bytes 4 (Pipeline.padding k) in
  let ly := le_bytes 16 (Pipeline.layout k) in
  Pipeline.pipelineKeyBytes k = sh ++ rp ++ tp ++ si ++ va ++ vb ++ rs ++ pd ++ ly /\
  length sh = 16%nat /\
  length (sh ++ rp) = 24%nat /\
  length (sh ++ rp ++ tp) = 26%nat /\
  length (sh ++ rp ++ tp ++ si) = 28%nat /\
  length (sh ++ rp ++ tp ++ si ++ va) = 156%nat /\
  length (sh ++ rp ++ tp ++ si ++ va ++ vb) = 284%nat /\
  length rs = 16%nat /\
  length (sh ++ rp ++ tp ++ si ++ va ++ vb ++ rs) = 300%nat /\
  length (sh ++ rp ++ tp ++ si ++ va ++ vb ++ rs ++ pd) = 304%nat /\
  length (Pipeline.pipelineKeyBytes k) = Pipeline.sizeofPipelineKey.
Proof.
  intros H. unfold Pipeline.pipelineKeyShaped in H. shaped_lengths H.
  destruct H as ((H1 & H2) & H3). cbv zeta.
  assert (Ha : forall a, length (Pipeline.attributeBytes a) = 8%nat)
    by (intros a; unfold Pipeline.attributeBytes; rewrite !length_app, !le_bytes_length; reflexivity).
  assert (Hb : forall b, length (Pipeline.bindingBytes b) = 8%nat)
    by (intros b; unfold Pipeline.bindingBytes; rewrite !length_app, !le_bytes_length; reflexivity).
  unfold Pipeline.pipelineKeyBytes.
  rewrite !length_app, !le_bytes_length, rasterStateBytes_length,
    !(concat_map_length _ 8 _ (fun z => le_bytes_length 8 z)),
    !(concat_map_length _ 8 _ Ha), !(concat_map_length _ 8 _ Hb), H1, H2, H3.
  repeat split; reflexivity.
Qed.

Lemma memoryImage_full (b : list Z) : memoryImage (length b) b = b.
Proof.
  unfold memoryImage. induction b as [|x b IH]; [reflexivity|].
  cbn [length seq map]. rewrite <- seq_shift, map_map. cbn [nth].
  rewrite IH. reflexivity.
Qed.

Lemma le_bytes_inj (n : nat) (x y : Z) :
  0 <= x < 2 ^ (8 * Z.of_nat n) -> 0 <= y < 2 ^ (8 * Z.of_nat n) ->
  le_bytes n x = le_bytes n y -> x = y.
Proof.
  revert x y. induction n as [|n IH]; intros x y Hx Hy Heq.
  - cbn in Hx, Hy. lia.
  - cbn in Heq. injection Heq as Hlo Hhi.
    assert (Hpow : 2 ^ (8 * Z.of_nat (S n)) = 2 ^ (8 * Z.of_nat n) * 2 ^ 8).
    { rewrite <- Z.pow_add_r by lia. f_equal. lia. }
    assert (Hsh : forall z, 0 <= z < 2 ^ (8 * Z.of_nat (S n)) ->
                  0 <= Z.shiftr z 8 < 2 ^ (8 * Z.of_nat n)).
    { intros z Hz. rewrite Z.shiftr_div_pow2 by lia. rewrite Hpow in Hz.
      split; [apply Z.div_pos; lia | apply Z.div_lt_upper_bound; lia]. }
    specialize (IH _ _ (Hsh x Hx) (Hsh y Hy) Hhi).
    change 255 with (Z.ones 8) in Hlo. rewrite !Z.land_ones in Hlo by lia.
    rewrite !Z.shiftr_div_pow2 in IH by lia.
    rewrite (Z.div_mod x (2 ^ 8)), (Z.div_mod y (2 ^ 8)) by lia.
    rewrite IH, Hlo. reflexivity.
Qed.

Lemma app_inj_length (a b c d : list Z) :
  length a = length c -> a ++ b = c ++ d -> a = c /\ b = d.
Proof.
  revert c. induction a as [|x a IH]; intros [|y c] Hl Heq; cbn in *; try lia.
  - split; [reflexivity | exact Heq].
  - injection Heq as -> Heq. destruct (IH c ltac:(lia) Heq) as [-> ->]. split; reflexivity.
Qed.

Lemma concat_map_inj {A} (f : A -> list Z) (n : nat) (P : A -> bool) (l1 l2 : list A) :
  (forall x, length (f x) = n) ->
  (forall x y, P x = true -> P y = true -> f x = f y -> x = y) ->
  forallb P l1 = true -> forallb P l2 = true -> length l1 = length l2 ->
  concat (map f l1) = concat (map f l2) -> l1 = l2.
Proof.
  intros Hf Hinj. revert l2.
  induction l1 as [|x l1 IH]; intros [|y l2] H1 H2 Hl Heq; cbn in *; try lia; [reflexivity|].
  apply andb_true_iff in H1 as [Hx H1]. apply andb_true_iff in H2 as [Hy H2].
  apply app_inj_length in Heq as [Hxy Heq]; [| rewrite !Hf; reflexivity].
  rewrite (Hinj x y Hx Hy Hxy), (IH l2 H1 H2 ltac:(lia) Heq). reflexivity.
Qed.

Lemma inRange_bytes (n : nat) (x : Z) :
  inRange (8 * Z.of_nat n) x = true -> 0 <= x < 2 ^ (8 * Z.of_nat n).
Proof. unfold inRange. rewrite andb_true_iff, Z.leb_le, Z.ltb_lt. tauto. Qed.

Lemma le_bytes_inj_range (n : nat) (bits : Z) (x y : Z) :
  bits = 8 * Z.of_nat n -> inRange bits x = true -> inRange bits y = true ->
  le_bytes n x = le_bytes n y -> x = y.
Proof. intros ->. intros Hx Hy. apply le_bytes_inj; apply inRange_bytes; assumption. Qed.

Lemma imageInfoBytes_inj (d1 d2 : DescriptorImageInfo) :
  imageInfoInRange d1 = true -> imageInfoInRange d2 = true ->
  imageInfoBytes d1 = imageInfoBytes d2 -> d1 = d2.
Proof.
  unfold imageInfoInRange, imageInfoBytes. rewrite !andb_true_iff.
  intros (((H1a & H1b) & H1c) & H1d) (((H2a & H2b) & H2c) & H2d) Heq.
  apply app_inj_length in Heq as [Ha Heq]; [|rewrite !le_bytes_length; reflexivity].
  apply app_inj_length in Heq as [Hb Heq]; [|rewrite !le_bytes_length; reflexivity].
  apply app_inj_length in Heq as [Hc Hd]; [|rewrite !le_bytes_length; reflexivity].
  apply (le_bytes_inj_range 8 64) in Ha; try assumption; [|reflexivity].
  apply (le_bytes_inj_range 8 64) in Hb; try assumption; [|reflexivity].
  apply (le_bytes_inj_range 4 32) in Hc; try assumption; [|reflexivity].
  apply (le_bytes_inj_range 4 32) in Hd; try assumption; [|reflexivity].
  destruct d1, d2; cbn in *; subst; reflexivity.
Qed.

(** Extra.  For keys that can exist in memory (arrays of the declared lengths,
    fields within their C++ types), the byte comparison [DescEqual] holds
    exactly when the keys are equal field by field: the descriptor-set map
    neither merges distinct requirements nor splits equal ones. *)
Theorem DescEqual_iff_eq (k1 k2 : DescriptorKey) :
  descriptorKeyWellFormed k1 = true -> descriptorKeyWellFormed k2 = true ->
  (DescEqual k1 k2 = true <-> k1 = k2).
Proof.
  intros H1 H2. split; [| intros <-; apply DescEqual_refl].
  intros Heq.
  unfold descriptorKeyWellFormed in H1, H2. rewrite !andb_true_iff in H1, H2.
  destruct H1 as (((((Hs1 & Hub1) & Hsm1) & Hia1) & Hof1) & Hsz1).
  destruct H2 as (((((Hs2 & Hub2) & Hsm2) & Hia2) & Hof2) & Hsz2).
  destruct (descriptorKey_layout k1 Hs1) as (E1 & _ & _ & _ & _ & L1).
  destruct (descriptorKey_layout k2 Hs2) as (E2 & _ & _ & _ & _ & L2).
  unfold DescEqual in Heq. apply memcmpEqual_spec in Heq.
  rewrite <- L1 in Heq at 1. rewrite <- L2 in Heq. rewrite !memoryImage_full in Heq.
  rewrite E1, E2 in Heq.
  unfold descriptorKeyShaped in Hs1, Hs2. shaped_lengths Hs1. shaped_lengths Hs2.
  destruct Hs1 as ((((A1 & B1) & C1) & D1) & F1).
  destruct Hs2 as ((((A2 & B2) & C2) & D2) & F2).
  assert (Hl8 : forall z, length (le_bytes 8 z) = 8%nat) by (intros; apply le_bytes_length).
  assert (Hl4 : forall z, length (le_bytes 4 z) = 4%nat) by (intros; apply le_bytes_length).
  apply app_inj_length in Heq as [Hub Heq];
    [| rewrite !(concat_map_length _ 8 _ Hl8), A1, A2; reflexivity].
  apply app_inj_length in Heq as [Hsm Heq];
    [| rewrite !(concat_map_length _ 24 _ imageInfoBytes_length), B1, B2; reflexivity].
  apply app_inj_length in Heq as [Hia Heq];
    [| rewrite !(concat_map_length _ 24 _ imageInfoBytes_length), C1, C2; reflexivity].
  apply app_inj_length in Heq as [Hof Hsz];
    [| rewrite !(concat_map_length _ 4 _ Hl4), D1, D2; reflexivity].
  apply (concat_map_inj _ 8 (inRange 64)) in Hub;
    [| exact Hl8 | intros x y Hx Hy; apply (le_bytes_inj_range 8 64); auto | auto | auto | lia].
  apply (concat_map_inj _ 24 imageInfoInRange) in Hsm;
    [| exact imageInfoBytes_length | exact imageInfoBytes_inj | auto | auto | lia].
  apply (concat_map_inj _ 24 imageInfoInRange) in Hia;
    [| exact imageInfoBytes_length | exact imageInfoBytes_inj | auto | auto | lia].
  apply (concat_map_inj _ 4 (inRange 32)) in Hof;
    [| exact Hl4 | intros x y Hx Hy; apply (le_bytes_inj_range 4 32); auto | auto | auto | lia].
  apply (concat_map_inj _ 4 (inRange 32)) in Hsz;
    [| exact Hl4 | intros x y Hx Hy; apply (le_bytes_inj_range 4 32); auto | auto | auto | lia].
  destruct k1, k2; cbn in *; subst; reflexivity.
Qed.

(** ** Struct conversions *)

(** Extra.  Within the ranges [VertexInputAttributeDescription::operator=]
    asserts ([location] and [binding] at most [0xff], [format] at most
    [0xffff]), storing a [VkVertexInputAttributeDescription] and converting it
    back gives the same description; outside them the stored fields are
    truncated to 8 and 16 bits. *)
Theorem vertexAttribute_round_trip (v : Pipeline.VkVertexInputAttributeDescription) :
  0 <= Pipeline.vkLocation v <= 0xff ->
  0 <= Pipeline.vkAttrBinding v <= 0xff ->
  0 <= Pipeline.vkFormat v <= 0xffff ->
  Pipeline.toVkAttribute (Pipeline.assignAttribute v) = v.
Proof.
  intros Hl Hb Hf. destruct v as [l b f o]; cbn in *.
  unfold Pipeline.toVkAttribute, Pipeline.assignAttribute; cbn.
  rewrite !Z.mod_small by lia. reflexivity.
Qed.

(** Extra.  With [binding] at most [0xffff] (the asserted range) and
    [inputRate] at most [0xffff], storing a [VkVertexInputBindingDescription]
    into [VertexInputBindingDescription] and converting it back gives the same
    description. *)
Theorem vertexBinding_round_trip (v : Pipeline.VkVertexInputBindingDescription) :
  0 <= Pipeline.vkBinding v <= 0xffff ->
  0 <= Pipeline.vkInputRate v <= 0xffff ->
  Pipeline.toVkBinding (Pipeline.assignBinding v) = v.
Proof.
  intros Hb Hr. destruct v as [b st r]; cbn in *.
  unfold Pipeline.toVkBinding, Pipeline.assignBinding; cbn.
  rewrite !Z.mod_small by lia. reflexivity.
Qed.

(** [keyA] is a key that can exist in memory. *)
Lemma descriptorKey_layout_witness :
  descriptorKeyShaped keyA = true /\ length (descriptorKeyBytes keyA) = sizeofDescriptorKey.
Proof.
  assert (H : descriptorKeyShaped keyA = true) by (vm_compute; reflexivity).
  split; [exact H|].
  destruct (descriptorKey_layout keyA H) as (_ & _ & _ & _ & _ & L). exact L.
Defined.

Lemma pipelineKey_layout_witness :
  Pipeline.pipelineKeyShaped examplePipelineKey = true /\
  length (Pipeline.pipelineKeyBytes examplePipelineKey) = Pipeline.sizeofPipelineKey.
Proof.
  assert (H : Pipeline.pipelineKeyShaped examplePipelineKey = true) by (vm_compute; reflexivity).
  split; [exact H|].
  destruct (pipelineKey_layout examplePipelineKey H) as (_ & _ & _ & _ & _ & _ & _ & _ & _ & _ & L).
  exact L.
Defined.

(** [keyA] and [keyB] differ: so do their byte images. *)
Lemma DescEqual_iff_eq_witness :
  descriptorKeyWellFormed keyA = true /\ descriptorKeyWellFormed keyB = true /\
  (DescEqual keyA keyB = true <-> keyA = keyB).
Proof.
  assert (HA : descriptorKeyWellFormed keyA = true) by (vm_compute; reflexivity).
  assert (HB : descriptorKeyWellFormed keyB = true) by (vm_compute; reflexivity).
  split; [exact HA|]. split; [exact HB|].
  exact (DescEqual_iff_eq keyA keyB HA HB).
Defined.

(** The first attribute of [examplePipelineKey]: location 0, format 106
    ([VK_FORMAT_R32G32B32_SFLOAT]). *)
Lemma vertexAttribute_round_trip_witness :
  Pipeline.toVkAttribute
    (Pipeline.assignAttribute
       {| Pipeline.vkLocation := 0; Pipeline.vkAttrBinding := 0;
          Pipeline.vkFormat := 106; Pipeline.vkAttrOffset := 0 |}) =
  {| Pipeline.vkLocation := 0; Pipeline.vkAttrBinding := 0;
     Pipeline.vkFormat := 106; Pipeline.vkAttrOffset := 0 |}.
Proof. apply vertexAttribute_round_trip; cbn; lia. Defined.

Lemma vertexBinding_round_trip_witness :
  Pipeline.toVkBinding
    (Pipeline.assignBinding
       {| Pipeline.vkBinding := 0; Pipeline.vkStride := 12; Pipeline.vkInputRate := 0 |}) =
  {| Pipeline.vkBinding := 0; Pipeline.vkStride := 12; Pipeline.vkInputRate := 0 |}.
Proof. apply vertexBinding_round_trip; cbn; lia. Defined.

(** ** Behaviour of bindDescriptors and createDescriptorSets *)

(** [crunch] with the map operations kept folded. *)
Ltac simpl_cache_maps :=
  cbn -[DescEqual descriptorWrites applyWrites wrap32 acquireAll mapFind mapUpdate mapEmplace] in *.
Ltac crunch_maps := simpl_cache_maps; repeat (crunch_step; simpl_cache_maps).

(** What a successful [bindDescriptors] leaves behind. *)
Lemma bindDescriptors_post (rep : VkReplies) (s s' : Cache) :
  bindDescriptors rep s = Some (true, s') ->
  DescEqual (mBoundDescriptor s') (mDescriptorRequirements s') = true /\
  (exists e, mapFind DescEqual (mDescriptorRequirements s') (mDescriptorSets s') = Some e /\
             lastUsed e = mCurrentTime s').
Proof.
  intros Hrun.
  destruct s as [t pl prl ds dr cnt ps ac p ep eb dw req bd pbr dd dc].
  unfold_cache. crunch_maps.
  all: try (apply andb_prop in Heqb as [Hb _]).
  all: split; [first [exact Hb | apply DescEqual_refl] |].
  all: rewrite mapFind_update_same; use_eqns; cbn; eexists; split; reflexivity.
Qed.

(** Extra.  After [bindDescriptors] returns true, the bound key equals the
    requirements under [DescEqual], and the descriptor-set map holds an entry
    for the requirements whose [lastUsed] is the current time. *)
Theorem bindDescriptors_success (rep : VkReplies) (s s' : Cache) :
  bindDescriptors rep s = Some (true, s') ->
  DescEqual (mBoundDescriptor s') (mDescriptorRequirements s') = true /\
  (exists e, mapFind DescEqual (mDescriptorRequirements s') (mDescriptorSets s') = Some e /\
             lastUsed e = mCurrentTime s').
Proof. apply bindDescriptors_post. Qed.

(** Extra.  Calling [bindDescriptors] again after a successful call, with any
    device replies, takes the fast path: it returns true, makes no device call,
    and only refreshes the [lastUsed] of the requirements' entry. *)
Theorem bindDescriptors_idempotent (rep rep' : VkReplies) (s s' : Cache) :
  bindDescriptors rep s = Some (true, s') ->
  bindDescriptors rep' s' =
    Some (true, setDescriptorSets
                  (mapUpdate DescEqual (mDescriptorRequirements s')
                     (withLastUsed (mCurrentTime s')) (mDescriptorSets s')) s').
Proof.
  intros Hrun.
  destruct (bindDescriptors_post rep s s' Hrun) as [Hb (e & Hf & _)].
  destruct s' as [t pl prl ds dr cnt ps ac p ep eb dw req bd pbr dd dc]; cbn in Hb, Hf |- *.
  assert (Hnil : is_nil ds = false) by (destruct ds; [discriminate | reflexivity]).
  unfold bindDescriptors, bind, ret, get, modify. cbn -[DescEqual mapFind mapUpdate].
  rewrite Hb, Hnil, Hf. reflexivity.
Qed.

(** Extra.  Off the fast path, when the requirements are already cached,
    [bindDescriptors] succeeds without allocating, writing or growing: the map
    changes only in the entry's [lastUsed], the bound key becomes the
    requirements, the counters, the pool and the device's descriptors are
    unchanged, and the only device calls are the creation of the pipeline
    layout when it is missing, then [vkCmdBindDescriptorSets] with the cached
    entry's sets. *)
Theorem bindDescriptors_hit (rep : VkReplies) (s s' : Cache) b e :
  fastPath s = false ->
  mapFind DescEqual (mDescriptorRequirements s) (mDescriptorSets s) = Some e ->
  bindDescriptors rep s = Some (b, s') ->
  b = true /\
  mDescriptorSets s' =
    mapUpdate DescEqual (mDescriptorRequirements s) (withLastUsed (mCurrentTime s))
      (mDescriptorSets s) /\
  mBoundDescriptor s' = mDescriptorRequirements s /\
  mDescriptorCacheEntryCount s' = mDescriptorCacheEntryCount s /\
  mDescriptorArenasCount s' = mDescriptorArenasCount s /\
  mDescriptorPoolSize s' = mDescriptorPoolSize s /\
  mDescriptorPool s' = mDescriptorPool s /\
  deviceDescriptors s' = deviceDescriptors s /\
  newCalls s s' =
    match mapFind Z.eqb (mPipelineRequirementsLayout s) (mPipelineLayouts s) with
    | Some l => [vkCmdBindDescriptorSets (layoutHandle l) (handles e)]
    | None => [vkCreatePipelineLayout (mPipelineRequirementsLayout s);
               vkCmdBindDescriptorSets (fst (replyLayout rep)) (handles e)]
    end.
Proof.
  intros Hslow Hhit Hrun.
  destruct s as [t pl prl ds dr cnt ps ac p ep eb dw req bd pbr dd dc].
  unfold fastPath, newCalls in *. cbn -[DescEqual mapFind] in Hslow, Hhit |- *.
  unfold_cache. simpl_cache_maps. rewrite Hslow, Hhit in Hrun. crunch_maps.
  all: rewrite ?Heqo; repeat split; try reflexivity.
  all: use_eqns; rewrite <- ?app_assoc; cbn [app]; apply skipn_length_app.
Qed.

(** Extra.  The writes [createDescriptorSets] submits number ten uniform
    writes plus one per active sampler and per active input attachment, so
    they never exceed the [UBUFFER_BINDING_COUNT + SAMPLER_BINDING_COUNT +
    INPUT_ATTACHMENT_COUNT] entries of the [descriptorWrites] array. *)
Theorem descriptorWrites_count (req : DescriptorKey) (dummy : VkWriteDescriptorSet) (hs : list Z) :
  length (descriptorWrites req dummy hs) =
    (UBUFFER_BINDING_COUNT + length (filter (activeSampler req) (seq 0 SAMPLER_BINDING_COUNT))
     + length (filter (activeInputAttachment req) (seq 0 INPUT_ATTACHMENT_COUNT)))%nat /\
  (length (descriptorWrites req dummy hs) <=
     UBUFFER_BINDING_COUNT + SAMPLER_BINDING_COUNT + INPUT_ATTACHMENT_COUNT)%nat.
Proof.
  rewrite <- (length_map target), descriptorWrites_targets, !length_app, !length_map, length_seq.
  split; [lia|].
  pose proof (filter_length_le (activeSampler req) (seq 0 SAMPLER_BINDING_COUNT)) as H1.
  pose proof (filter_length_le (activeInputAttachment req) (seq 0 INPUT_ATTACHMENT_COUNT)) as H2.
  rewrite length_seq in H1, H2. lia.
Qed.

(** Every write targets one of the first three handles. *)
Lemma descriptorWrites_target_sets req dummy hs p :
  In p (map target (descriptorWrites req dummy hs)) ->
  fst p = nth 0 hs VK_NULL_HANDLE \/ fst p = nth 1 hs VK_NULL_HANDLE \/
  fst p = nth 2 hs VK_NULL_HANDLE.
Proof.
  rewrite descriptorWrites_targets, !in_app_iff, !in_map_iff.
  intros [(b & <- & _) | [(b & <- & _) | (b & <- & _)]]; cbn; tauto.
Qed.

(** Extra.  On a miss, [createDescriptorSets] changes the device's
    descriptors only in the three sets of the entry it returns; when it fails
    it changes no descriptor and calls no [vkUpdateDescriptorSets]. *)
Theorem createDescriptorSets_device_frame (rep : VkReplies) (s s' : Cache) r :
  mapFind DescEqual (mDescriptorRequirements s) (mDescriptorSets s) = None ->
  createDescriptorSets rep s = Some (r, s') ->
  match r with
  | None => deviceDescriptors s' = deviceDescriptors s /\
            existsb isUpdate (newCalls s s') = false
  | Some e => forall set binding,
      set <> nth 0 (handles e) VK_NULL_HANDLE -> set <> nth 1 (handles e) VK_NULL_HANDLE ->
      set <> nth 2 (handles e) VK_NULL_HANDLE ->
      deviceDescriptor s' set binding = deviceDescriptor s set binding
  end.
Proof.
  intros Hmiss Hrun.
  destruct s as [t pl prl ds dr cnt ps ac p ep eb dw req bd pbr dd dc]; cbn in Hmiss.
  unfold newCalls, deviceDescriptor. unfold_cache. crunch_maps.
  all: try emplaced_entry.
  all: try (split; [reflexivity | rewrite <- ?app_assoc; rewrite skipn_length_app; reflexivity]).
  all: intros set binding H0 H1 H2; cbn [handles deviceDescriptors];
       apply applyWrites_untouched; intros Hin;
       apply descriptorWrites_target_sets in Hin; cbn [fst] in Hin; tauto.
Qed.

(** Extra.  Every write after the ten uniform-buffer writes is an image
    write for one array element: either a combined image sampler for an active
    sampler slot, written to that binding of the sampler set with the slot's
    image info, or an input attachment for an active input-attachment slot,
    written to that binding of the input-attachment set. *)
Theorem descriptorWrites_image_writes (req : DescriptorKey) (dummy : VkWriteDescriptorSet)
  (hs : list Z) :
  Forall (fun w =>
    dstArrayElement w = 0 /\ descriptorCount w = 1 /\ pBufferInfo w = None /\
    exists b,
      (descriptorType w = VK_DESCRIPTOR_TYPE_COMBINED_IMAGE_SAMPLER /\
       dstSet w = nth 1 hs VK_NULL_HANDLE /\ (b < SAMPLER_BINDING_COUNT)%nat /\
       activeSampler req b = true /\ dstBinding w = Z.of_nat b /\
       pImageInfo w = Some (toVkImageInfo (nth b (samplers req) zeroImageInfo))) \/
      (descriptorType w = VK_DESCRIPTOR_TYPE_INPUT_ATTACHMENT /\
       dstSet w = nth 2 hs VK_NULL_HANDLE /\ (b < INPUT_ATTACHMENT_COUNT)%nat /\
       activeInputAttachment req b = true /\ dstBinding w = Z.of_nat b /\
       pImageInfo w = Some (toVkImageInfo (nth b (inputAttachments req) zeroImageInfo))))
    (skipn UBUFFER_BINDING_COUNT (descriptorWrites req dummy hs)).
Proof.
  unfold descriptorWrites.
  rewrite skipn_app, length_map, length_seq, Nat.sub_diag, skipn_O.
  rewrite (skipn_all2 (map _ _)) by (rewrite length_map, length_seq; lia). cbn [app].
  rewrite Forall_app, !Forall_forall. split.
  - intros w Hw. apply in_flat_map in Hw as (b & Hb & Hw). apply in_seq in Hb.
    unfold samplerWrite in Hw. unfold activeSampler.
    destruct (negb _) eqn:E; [|destruct Hw].
    destruct Hw as [<- | []]. cbn [dstArrayElement descriptorCount pBufferInfo].
    repeat split. exists b. left. cbn. repeat split; auto. lia.
  - intros w Hw. apply in_flat_map in Hw as (b & Hb & Hw). apply in_seq in Hb.
    unfold inputAttachmentWrite in Hw. unfold activeInputAttachment.
    destruct (negb _) eqn:E; [|destruct Hw].
    destruct Hw as [<- | []]. cbn [dstArrayElement descriptorCount pBufferInfo].
    repeat split. exists b. right. cbn. repeat split; auto. lia.
Qed.

(** ** Pool bookkeeping *)

Lemma dormantSets_cons (kl : Z * PipelineLayoutCacheEntry) rest :
  dormantSets (kl :: rest) =
    (length (nth 0 (descriptorSetArenas (snd kl)) []) + dormantSets rest)%nat.
Proof. reflexivity. Qed.

Lemma dormantSets_cleared (layouts : list (Z * PipelineLayoutCacheEntry)) :
  dormantSets (map (fun kl => (fst kl, withArenas (map (fun _ => []) (descriptorSetArenas (snd kl)))
                                                  (snd kl))) layouts) = 0%nat.
Proof.
  induction layouts as [|[k l] rest IH]; [reflexivity|].
  cbn [map]. rewrite dormantSets_cons, IH. cbn [snd withArenas descriptorSetArenas].
  destruct (descriptorSetArenas l); reflexivity.
Qed.

Lemma dormantSets_update (layouts : list (Z * PipelineLayoutCacheEntry)) k l a :
  mapFind Z.eqb k layouts = Some l ->
  (dormantSets (mapUpdate Z.eqb k (withArenas a) layouts) + length (nth 0 (descriptorSetArenas l) [])
   = dormantSets layouts + length (nth 0 a []))%nat /\
  (length (nth 0 (descriptorSetArenas l) []) <= dormantSets layouts)%nat.
Proof.
  induction layouts as [|[k' l'] rest IH]; cbn -[dormantSets]; [discriminate|].
  rewrite !dormantSets_cons. cbn [snd].
  destruct (k' =? k); intros H.
  - injection H as <-. rewrite dormantSets_cons. cbn [snd withArenas descriptorSetArenas]. lia.
  - destruct (IH H) as [H1 H2]. rewrite dormantSets_cons. cbn [snd]. lia.
Qed.

Lemma popArenas_first (a : list (list Z)) hs a' :
  popArenas a = Some (hs, a') -> is_nil (nth 0 a []) = false ->
  (length (nth 0 a' []) + 1 = length (nth 0 a []))%nat.
Proof.
  destruct a as [|x rest]; cbn; [discriminate|].
  destruct (rev x) as [|y r] eqn:Hx; [discriminate|].
  destruct (popArenas rest) as [[hs0 rest0]|]; [|discriminate].
  intros H _. injection H as <- <-. cbn.
  rewrite <- (length_rev x), Hx, length_rev. cbn. lia.
Qed.

Lemma length_mapUpdate {K V} (eqb : K -> K -> bool) (k : K) (f : V -> V) m :
  length (mapUpdate eqb k f m) = length m.
Proof. rewrite <- (length_map fst), mapUpdate_keys, length_map. reflexivity. Qed.

Lemma length_mapEmplace_new {K V} (eqb : K -> K -> bool) (k : K) (v : V) m :
  mapFind eqb k m = None -> length (mapEmplace eqb k v m) = S (length m).
Proof. intros H. unfold mapEmplace. rewrite H. reflexivity. Qed.

Lemma pool_accounting_preserved (rep : VkReplies) (s s' : Cache) b :
  poolAccounting s -> bindDescriptors rep s = Some (b, s') -> poolAccounting s'.
Proof.
  intros Hacc Hrun.
  destruct s as [t pl prl ds dr cnt ps ac p ep eb dw req bd pbr dd dc].
  unfold poolAccounting in *; cbn in Hacc. destruct Hacc as (Hd & Hac & Hps & Hcap).
  unfold_cache. crunch_maps.
  all: cbn [mPipelineLayouts mDescriptorArenasCount mDescriptorPoolSize mDescriptorSets].
  all: rewrite ?dormantSets_cons, ?dormantSets_cleared, ?length_mapUpdate.
  all: try (rewrite length_mapEmplace_new by first [eassumption | reflexivity]).
  all: cbn [snd descriptorSetArenas withArenas nth length].
  all: repeat match goal with
         | H : (_ >? _) = true |- _ => apply Z.gtb_lt in H
         | H : (_ >? _) = false |- _ => rewrite Z.gtb_ltb, Z.ltb_ge in H
         end.
  all: try (repeat split; lia).
  all: match goal with
       | Hp : popArenas (descriptorSetArenas ?l) = Some (_, ?a),
         Hn : is_nil (nth 0 _ []) = false,
         Hf : @mapFind Z PipelineLayoutCacheEntry _ ?k ?L = Some ?l |- _ =>
           destruct (dormantSets_update L k l a Hf) as [Hu Hle];
           pose proof (popArenas_first _ _ _ Hp Hn)
       end.
  all: rewrite wrap32_small by lia; repeat split; lia.
Qed.


(** Extra.  When the pool bookkeeping holds ([poolAccounting]), the
    [assert_invariant(mDescriptorArenasCount > 0)] before a reuse from the
    arenas holds, and every [bindDescriptors] call, whatever its outcome,
    keeps the bookkeeping: the counter of dormant bundles matches the arenas
    and active plus dormant bundles fit in the pool. *)
Theorem pool_accounting (rep : VkReplies) (s : Cache) :
  poolAccounting s ->
  (is_nil (nth 0 (currentArenas s) []) = false -> 0 < mDescriptorArenasCount s) /\
  (forall b s', bindDescriptors rep s = Some (b, s') -> poolAccounting s').
Proof.
  intros Hacc. split.
  - destruct Hacc as (Hd & _). unfold currentArenas.
    destruct (mapFind Z.eqb (mPipelineRequirementsLayout s) (mPipelineLayouts s)) as [l|] eqn:Hf;
      [|discriminate].
    intros Hn.
    destruct (dormantSets_update _ _ l (descriptorSetArenas l) Hf) as [_ Hle].
    destruct (nth 0 (descriptorSetArenas l) []); [discriminate|]. cbn in Hle. lia.
  - intros b s'. apply pool_accounting_preserved, Hacc.
Qed.

(** ** Instances of the behaviour theorems *)

(** [cacheReclaimed]: one dormant bundle in a pool of 512. *)
Lemma pool_accounting_witness :
  poolAccounting cacheReclaimed /\
  (is_nil (nth 0 (currentArenas cacheReclaimed) []) = false ->
   0 < mDescriptorArenasCount cacheReclaimed) /\
  match bindDescriptors repOk cacheReclaimed with
  | Some (b, s') => poolAccounting s'
  | None => False
  end.
Proof.
  assert (H : poolAccounting cacheReclaimed)
    by (unfold poolAccounting, dormantSets, cacheReclaimed, exampleCache,
          INITIAL_DESCRIPTOR_SET_POOL_SIZE; cbn; lia).
  split; [exact H|]. split; [exact (proj1 (pool_accounting repOk cacheReclaimed H))|].
  destruct (bindDescriptors repOk cacheReclaimed) as [[b s']|] eqn:Hrun.
  - exact (proj2 (pool_accounting repOk cacheReclaimed H) b s' Hrun).
  - vm_compute in Hrun. discriminate Hrun.
Defined.

(** The first draw on [cacheEmpty]. *)
Lemma bindDescriptors_success_witness :
  match bindDescriptors repOk cacheEmpty with
  | Some (true, s') =>
      DescEqual (mBoundDescriptor s') (mDescriptorRequirements s') = true /\
      (exists e, mapFind DescEqual (mDescriptorRequirements s') (mDescriptorSets s') = Some e /\
                 lastUsed e = mCurrentTime s')
  | _ => False
  end.
Proof.
  destruct (bindDescriptors repOk cacheEmpty) as [[[|] s']|] eqn:Hrun;
    try (vm_compute in Hrun; discriminate Hrun).
  exact (bindDescriptors_success repOk cacheEmpty s' Hrun).
Defined.

(** A second draw after the first one on [cacheEmpty], with a failing allocator. *)
Lemma bindDescriptors_idempotent_witness :
  match bindDescriptors repOk cacheEmpty with
  | Some (true, s') =>
      bindDescriptors repFail s' =
        Some (true, setDescriptorSets
                      (mapUpdate DescEqual (mDescriptorRequirements s')
                         (withLastUsed (mCurrentTime s')) (mDescriptorSets s')) s')
  | _ => False
  end.
Proof.
  destruct (bindDescriptors repOk cacheEmpty) as [[[|] s']|] eqn:Hrun;
    try (vm_compute in Hrun; discriminate Hrun).
  exact (bindDescriptors_idempotent repOk repFail cacheEmpty s' Hrun).
Defined.

(** [cacheUnbound]: a hit off the fast path. *)
Lemma bindDescriptors_hit_witness :
  fastPath cacheUnbound = false /\
  mapFind DescEqual (mDescriptorRequirements cacheUnbound) (mDescriptorSets cacheUnbound)
    = Some exampleEntry /\
  match bindDescriptors repOk cacheUnbound with
  | Some (b, s') =>
      b = true /\
      mDescriptorSets s' =
        mapUpdate DescEqual (mDescriptorRequirements cacheUnbound)
          (withLastUsed (mCurrentTime cacheUnbound)) (mDescriptorSets cacheUnbound) /\
      mBoundDescriptor s' = mDescriptorRequirements cacheUnbound /\
      mDescriptorCacheEntryCount s' = mDescriptorCacheEntryCount cacheUnbound /\
      mDescriptorArenasCount s' = mDescriptorArenasCount cacheUnbound /\
      mDescriptorPoolSize s' = mDescriptorPoolSize cacheUnbound /\
      mDescriptorPool s' = mDescriptorPool cacheUnbound /\
      deviceDescriptors s' = deviceDescriptors cacheUnbound /\
      newCalls cacheUnbound s' =
        match mapFind Z.eqb (mPipelineRequirementsLayout cacheUnbound)
                (mPipelineLayouts cacheUnbound) with
        | Some l => [vkCmdBindDescriptorSets (layoutHandle l) (handles exampleEntry)]
        | None => [vkCreatePipelineLayout (mPipelineRequirementsLayout cacheUnbound);
                   vkCmdBindDescriptorSets (fst (replyLayout repOk)) (handles exampleEntry)]
        end
  | None => False
  end.
Proof.
  assert (H1 : fastPath cacheUnbound = false) by (vm_compute; reflexivity).
  assert (H2 : mapFind DescEqual (mDescriptorRequirements cacheUnbound)
                 (mDescriptorSets cacheUnbound) = Some exampleEntry)
    by (vm_compute; reflexivity).
  split; [exact H1|]. split; [exact H2|].
  destruct (bindDescriptors repOk cacheUnbound) as [[b s']|] eqn:Hrun;
    [|vm_compute in Hrun; discriminate Hrun].
  exact (bindDescriptors_hit repOk cacheUnbound s' b exampleEntry H1 H2 Hrun).
Defined.

(** [cacheReclaimed]: the sets 31, 32, 33 are reused. *)
Lemma createDescriptorSets_device_frame_witness :
  mapFind DescEqual (mDescriptorRequirements cacheReclaimed) (mDescriptorSets cacheReclaimed)
    = None /\
  match createDescriptorSets repOk cacheReclaimed with
  | Some (r, s') =>
      match r with
      | None => deviceDescriptors s' = deviceDescriptors cacheReclaimed /\
                existsb isUpdate (newCalls cacheReclaimed s') = false
      | Some e => forall set binding,
          set <> nth 0 (handles e) VK_NULL_HANDLE -> set <> nth 1 (handles e) VK_NULL_HANDLE ->
          set <> nth 2 (handles e) VK_NULL_HANDLE ->
          deviceDescriptor s' set binding = deviceDescriptor cacheReclaimed set binding
      end
  | None => False
  end.
Proof.
  assert (H : mapFind DescEqual (mDescriptorRequirements cacheReclaimed)
                (mDescriptorSets cacheReclaimed) = None) by (vm_compute; reflexivity).
  split; [exact H|].
  destruct (createDescriptorSets repOk cacheReclaimed) as [[r s']|] eqn:Hrun;
    [|vm_compute in Hrun; discriminate Hrun].
  exact (createDescriptorSets_device_frame repOk cacheReclaimed s' r H Hrun).
Defined.
